(** * derive_task_completions.py: a shallow embedding and its properties

    The script rebuilds [economic/task_completions.jsonl] of an agent
    directory from three older logs ([work/tasks.jsonl],
    [economic/token_costs.jsonl], [economic/balance.jsonl]).

    Conventions of the embedding.
    - A parsed JSON value is a [json]; a JSON object (a Python dict with
      string keys) is an association list in insertion order.
    - A Python exception is a constructor of [exn]; a function that can
      raise returns a [result].
    - A Python float is an exact rational ([Q]); rounding is exact
      round-half-even on the rational.  The IEEE values nan and inf are
      not represented.
    - Console output (the progress lines and the summary) is not
      modelled: it never changes a returned value or a written file. *)

From Stdlib Require Import List String Ascii Bool ZArith QArith Lia.
From Stdlib Require Import Sorted Permutation.
Import ListNotations.

Set Warnings "-register-all".

(** ** Exceptions *)

Inductive exn : Type :=
| AttributeError
| TypeError
| ValueError
| OverflowError.

Inductive result (A : Type) : Type :=
| Ok (a : A)
| Raise (e : exn).

Arguments Ok {A} a.
Arguments Raise {A} e.

Definition bind {A B : Type} (m : result A) (k : A -> result B) : result B :=
  match m with
  | Ok a => k a
  | Raise e => Raise e
  end.

Notation "x <- m ;; k" := (bind m (fun x => k))
  (at level 61, m at next level, right associativity).

(** [try: m except (ValueError, TypeError): pass], where [m] either
    returns from the enclosing function ([Some v]) or runs to its end
    ([None]).  The handler falls through to the code after the [try]. *)
Definition try_except_value_type {A : Type} (m : result (option A))
  : result (option A) :=
  match m with
  | Raise ValueError => Ok None
  | Raise TypeError => Ok None
  | r => r
  end.

(** ** JSON values *)

Inductive json : Type :=
| JNull
| JBool (b : bool)
| JInt (z : Z)
| JFloat (q : Q)
| JStr (s : string)
| JList (l : list json)
| JDict (d : list (string * json)).

(** A record of a log: the items of a JSON object. *)
Definition record : Type := list (string * json).

(** [rec.get(k)] on a dict with string keys; [None] is Python's None for
    a missing key, and [rec.get(k)] on a present null is [Some JNull]. *)
Fixpoint lookup (k : string) (r : record) : option json :=
  match r with
  | [] => None
  | (k', v) :: r' => if String.eqb k k' then Some v else lookup k r'
  end.

(** [rec.get(k)] as a Python value: a missing key reads as None. *)
Definition get (r : record) (k : string) : json :=
  match lookup k r with
  | Some v => v
  | None => JNull
  end.

(** [rec.get(k, default)]. *)
Definition get_default (r : record) (k : string) (default : json) : json :=
  match lookup k r with
  | Some v => v
  | None => default
  end.

(** [k in rec]. *)
Definition has_key (r : record) (k : string) : bool :=
  match lookup k r with
  | Some _ => true
  | None => false
  end.

(** Python truth value of a JSON value. *)
Definition truthy (v : json) : bool :=
  match v with
  | JNull => false
  | JBool b => b
  | JInt z => negb (Z.eqb z 0)
  | JFloat q => negb (Qeq_bool q 0)
  | JStr s => negb (String.eqb s "")
  | JList l => match l with [] => false | _ => true end
  | JDict d => match d with [] => false | _ => true end
  end.

(** [a or b]. *)
Definition py_or (a b : json) : json := if truthy a then a else b.

(** ** Equality and order of JSON values

    Python compares numbers by value across bool, int and float
    ([True == 1 == 1.0]), strings by code point, lists
    lexicographically, and dicts by content whatever the order of their
    items.  [canon] maps a value to a normal form on which Python's
    [==] is structural equality. *)

Inductive cval : Type :=
| CNull
| CNum (q : Q)
| CStr (s : string)
| CList (l : list cval)
| CDict (d : list (string * cval)).

Fixpoint cdict_insert (k : string) (v : cval) (d : list (string * cval))
  : list (string * cval) :=
  match d with
  | [] => [(k, v)]
  | (k', v') :: d' =>
      match String.compare k k' with
      | Lt => (k, v) :: d
      | Eq => d
      | Gt => (k', v') :: cdict_insert k v d'
      end
  end.

Definition cdict_norm (d : list (string * cval)) : list (string * cval) :=
  fold_left (fun acc kv => cdict_insert (fst kv) (snd kv) acc) d [].

Fixpoint canon (v : json) : cval :=
  match v with
  | JNull => CNull
  | JBool b => CNum (if b then 1 else 0)
  | JInt z => CNum (inject_Z z)
  | JFloat q => CNum (Qred q)
  | JStr s => CStr s
  | JList l => CList (map canon l)
  | JDict d => CDict (cdict_norm (map (fun kv : string * json => let (k, x) := kv in (k, canon x)) d))
  end.

Definition Q_eqb (p q : Q) : bool :=
  Z.eqb (Qnum p) (Qnum q) && Pos.eqb (Qden p) (Qden q).

(** Item-wise equality of two lists. *)
Fixpoint list_eqb {A : Type} (f : A -> A -> bool) (l m : list A) : bool :=
  match l, m with
  | [] , [] => true
  | x :: l', y :: m' => f x y && list_eqb f l' m'
  | _, _ => false
  end.

Fixpoint cval_eqb (a b : cval) {struct a} : bool :=
  match a, b with
  | CNull, CNull => true
  | CNum p, CNum q => Q_eqb p q
  | CStr s, CStr t => String.eqb s t
  | CList l, CList m => list_eqb cval_eqb l m
  | CDict d, CDict e =>
      list_eqb (fun kx ky : string * cval =>
                  String.eqb (fst kx) (fst ky) && cval_eqb (snd kx) (snd ky))
               d e
  | _, _ => false
  end.

(** Python's [a == b] on JSON values. *)
Definition py_eq (a b : json) : bool := cval_eqb (canon a) (canon b).

(** Lexicographic comparison of two lists by the item comparison [f]:
    the first pair of items that [f] does not find equal decides. *)
Fixpoint lex_cmp {A : Type} (f : A -> A -> option comparison)
    (l m : list A) : option comparison :=
  match l, m with
  | [], [] => Some Eq
  | [], _ :: _ => Some Lt
  | _ :: _, [] => Some Gt
  | x :: l', y :: m' =>
      match f x y with
      | Some Eq => lex_cmp f l' m'
      | r => r
      end
  end.

(** Three-way comparison of two normal forms, [None] where Python's
    [<] raises TypeError.  Inside a list, Python first looks for the
    first index where the items are not [==] and compares those two
    items; equal items of any type (null, dicts) are skipped. *)
Fixpoint cmp (a b : cval) {struct a} : option comparison :=
  match a, b with
  | CNum p, CNum q => Some (p ?= q)%Q
  | CStr s, CStr t => Some (String.compare s t)
  | CList l, CList m => lex_cmp cmp l m
  | CNull, CNull => Some Eq
  | CDict _, CDict _ => if cval_eqb a b then Some Eq else None
  | _, _ => None
  end.

(** The pairs of types that Python's [<] accepts at top level: numbers
    with numbers, strings with strings, lists with lists. *)
Definition orderable (a b : cval) : bool :=
  match a, b with
  | CNum _, CNum _ | CStr _, CStr _ | CList _, CList _ => true
  | _, _ => false
  end.

(** Python's [a < b]: anything but an orderable pair (None, dicts,
    mixed types) raises TypeError, also when the two values are equal;
    so do two lists whose deciding items cannot be ordered. *)
Definition py_lt (a b : json) : result bool :=
  if orderable (canon a) (canon b) then
    match cmp (canon a) (canon b) with
    | Some Lt => Ok true
    | Some _ => Ok false
    | None => Raise TypeError
    end
  else Raise TypeError.

(** A value usable as a dict key: lists and dicts are unhashable. *)
Definition hashable (v : json) : bool :=
  match v with
  | JList _ | JDict _ => false
  | _ => true
  end.

(** ** Floats, rounding and date-times *)

(** [round(x, ndigits)] on a float: nearest multiple of [10^-ndigits],
    ties to the even one. *)
Definition py_round (x : Q) (ndigits : nat) : Q :=
  let s := (10 ^ Z.of_nat ndigits)%Z in
  let n := (Qnum x * s)%Z in
  let d := Zpos (Qden x) in
  let m := (n / d)%Z in
  let r := (n mod d)%Z in
  let m' := match (2 * r ?= d)%Z with
            | Lt => m
            | Gt => (m + 1)%Z
            | Eq => if Z.even m then m else (m + 1)%Z
            end in
  Qred (Qmake m' (Z.to_pos s)).

(** [float(n)] raises OverflowError on an int that rounds to [2^1024]
    or beyond. *)
Definition float_overflow (z : Z) : bool :=
  (2 ^ 1024 - 2 ^ 970 <=? Z.abs z)%Z.

(** A [datetime]: its wall time in microseconds on a linear scale, and
    the UTC offset in microseconds when it is timezone-aware. *)
Record datetime : Type := {
  dt_micros : Z;
  dt_offset : option Z
}.

(** [(t_end - t_start).total_seconds()]; subtracting a naive from an
    aware datetime (or the reverse) raises TypeError. *)
Definition total_seconds_between (t_end t_start : datetime) : result Q :=
  match dt_offset t_end, dt_offset t_start with
  | None, None =>
      Ok (Qmake (dt_micros t_end - dt_micros t_start) 1000000)
  | Some oe, Some os =>
      Ok (Qmake ((dt_micros t_end - oe) - (dt_micros t_start - os)) 1000000)
  | _, _ => Raise TypeError
  end.

(** ** Python dicts keyed by task identifier

    Insertion-ordered; assigning to a key already present replaces the
    value and keeps the key object and its position. *)

Definition pydict (V : Type) : Type := list (json * V).

Fixpoint pd_get {V : Type} (k : json) (d : pydict V) : option V :=
  match d with
  | [] => None
  | (k', v) :: d' => if py_eq k k' then Some v else pd_get k d'
  end.

Fixpoint pd_set {V : Type} (k : json) (v : V) (d : pydict V) : pydict V :=
  match d with
  | [] => [(k, v)]
  | (k', v') :: d' =>
      if py_eq k k' then (k', v) :: d' else (k', v') :: pd_set k v d'
  end.

(** [d[k] = v]: TypeError on an unhashable key. *)
Definition pd_store {V : Type} (d : pydict V) (k : json) (v : V)
  : result (pydict V) :=
  if hashable k then Ok (pd_set k v d) else Raise TypeError.

(** ** Files

    A line of a JSONL file is represented by what [line.strip()] and
    [json.loads] make of it: blank, rejected with JSONDecodeError, or a
    parsed value.  Writing [json.dumps(r) + "\n"] produces the line that
    parses to [r]. *)

Inductive line : Type :=
| Blank
| Malformed
| Parsed (v : json).

(** The agent data directory: its three input logs ([None] when the
    file does not exist), whether [economic/] exists, and the output
    file. *)
Record agent_dir : Type := {
  work_tasks : option (list line);
  economic_token_costs : option (list line);
  economic_balance : option (list line);
  economic_exists : bool;
  economic_task_completions : option (list line)
}.

(** ** Loaders *)

Fixpoint load_jsonl (lines : list line) : list json :=
  match lines with
  | [] => []
  | Blank :: rest => load_jsonl rest
  | Malformed :: rest => load_jsonl rest
  | Parsed v :: rest => v :: load_jsonl rest
  end.

(** [rec.get] exists on dicts only: any other parsed value raises
    AttributeError. *)
Definition as_record (rec : json) : result record :=
  match rec with
  | JDict d => Ok d
  | _ => Raise AttributeError
  end.

Fixpoint index_tasks (recs : list json) (by_task : pydict record)
  : result (pydict record) :=
  match recs with
  | [] => Ok by_task
  | rec :: rest =>
      r <- as_record rec ;;
      let tid := get r "task_id" in
      if truthy tid then
        by_task' <- pd_store by_task tid r ;;
        index_tasks rest by_task'
      else index_tasks rest by_task
  end.

Definition load_tasks (dir : agent_dir) : result (pydict record) :=
  match work_tasks dir with
  | None => Ok []
  | Some f => index_tasks (load_jsonl f) []
  end.

Definition is_income (r : record) : bool :=
  py_eq (get r "type") (JStr "work_income").

Definition is_cost (r : record) : bool :=
  negb (is_income r) && has_key r "timestamp_start" && has_key r "timestamp_end".

Fixpoint index_token_costs (recs : list json)
    (cost_records income_records : pydict record)
  : result (pydict record * pydict record) :=
  match recs with
  | [] => Ok (cost_records, income_records)
  | rec :: rest =>
      r <- as_record rec ;;
      let tid := get r "task_id" in
      if negb (truthy tid) then
        index_token_costs rest cost_records income_records
      else if is_income r then
        income_records' <- pd_store income_records tid r ;;
        index_token_costs rest cost_records income_records'
      else if has_key r "timestamp_start" && has_key r "timestamp_end" then
        cost_records' <- pd_store cost_records tid r ;;
        index_token_costs rest cost_records' income_records
      else index_token_costs rest cost_records income_records
  end.

Definition load_token_costs (dir : agent_dir)
  : result (pydict record * pydict record) :=
  match economic_token_costs dir with
  | None => Ok ([], [])
  | Some f => index_token_costs (load_jsonl f) [] []
  end.

Definition is_balance (r : record) : bool :=
  negb (py_eq (get r "date") (JStr "initialization")).

Fixpoint index_balance (recs : list json) (by_task : pydict record)
  : result (pydict record) :=
  match recs with
  | [] => Ok by_task
  | rec :: rest =>
      r <- as_record rec ;;
      let tid := get r "task_id" in
      if truthy tid && is_balance r then
        by_task' <- pd_store by_task tid r ;;
        index_balance rest by_task'
      else index_balance rest by_task
  end.

Definition load_balance (dir : agent_dir) : result (pydict record) :=
  match economic_balance dir with
  | None => Ok []
  | Some f => index_balance (load_jsonl f) []
  end.

(** ** Derived completion records *)

(** The dict built by [derive_record], one field per key. *)
Record completion : Type := {
  task_id : json;
  date : json;
  attempt : Z;
  work_submitted : bool;
  evaluation_score : Q;
  money_earned : Q;
  wall_clock_seconds : option Q;
  timestamp : json;
  _derived : bool
}.

Definition opt_float (x : option Q) : json :=
  match x with
  | Some q => JFloat q
  | None => JNull
  end.

(** The record as the JSON object that [json.dumps] serialises. *)
Definition completion_json (c : completion) : json :=
  JDict [ ("task_id", task_id c);
          ("date", date c);
          ("attempt", JInt (attempt c));
          ("work_submitted", JBool (work_submitted c));
          ("evaluation_score", JFloat (evaluation_score c));
          ("money_earned", JFloat (money_earned c));
          ("wall_clock_seconds", opt_float (wall_clock_seconds c));
          ("timestamp", timestamp c);
          ("_derived", JBool (_derived c)) ]%string.

(** How the process ends: an exit status, or an uncaught exception
    (a traceback and a non-zero status). *)
Inductive termination : Type :=
| Exit (status : Z)
| Uncaught (e : exn).

(** Truth value of an optional dict ([None] or empty is false). *)
Definition rec_truthy (r : option record) : bool :=
  match r with
  | Some (_ :: _) => true
  | _ => false
  end.

(** [r.get(k) if r else None].  The script subscripts a record
    ([r[k]]) only under a test that [r.get(k)] is true, where both read
    the same value; the subscripts are written with [get_if] too. *)
Definition get_if (r : option record) (k : string) : json :=
  match r with
  | Some ((_ :: _) as d) => get d k
  | _ => JNull
  end.

Section Derivation.

(** The two library parsers the script calls on strings:
    [datetime.fromisoformat] and [float], [None] standing for
    ValueError.  Their grammars depend on the Python version; the
    development holds for any. *)
Variable fromisoformat : string -> option datetime.
Variable float_of_str : string -> option Q.

(** [datetime.fromisoformat(v)]: TypeError unless [v] is a str. *)
Definition datetime_fromisoformat (v : json) : result datetime :=
  match v with
  | JStr s =>
      match fromisoformat s with
      | Some t => Ok t
      | None => Raise ValueError
      end
  | _ => Raise TypeError
  end.

(** [float(v)]. *)
Definition py_float (v : json) : result Q :=
  match v with
  | JBool b => Ok (if b then 1 else 0)
  | JInt z => if float_overflow z then Raise OverflowError else Ok (inject_Z z)
  | JFloat q => Ok q
  | JStr s =>
      match float_of_str s with
      | Some q => Ok q
      | None => Raise ValueError
      end
  | JNull | JList _ | JDict _ => Raise TypeError
  end.

(** Source 1 of [compute_wall_clock]: the body of the first [if],
    [Some secs] when it returns and [None] when control reaches the
    code after it. *)
Definition wall_clock_from_cost (cost_rec : option record)
  : result (option Q) :=
  if rec_truthy cost_rec
     && truthy (get_if cost_rec "timestamp_start")
     && truthy (get_if cost_rec "timestamp_end")
  then
    try_except_value_type
      (t_start <- datetime_fromisoformat (get_if cost_rec "timestamp_start") ;;
       t_end <- datetime_fromisoformat (get_if cost_rec "timestamp_end") ;;
       secs <- total_seconds_between t_end t_start ;;
       if Qle_bool 0 secs then Ok (Some (py_round secs 2)) else Ok None)
  else Ok None.

(** Source 2: the body of the second [if]. *)
Definition wall_clock_from_balance (balance_rec : option record)
  : result (option Q) :=
  if rec_truthy balance_rec then
    match get_if balance_rec "task_completion_time_seconds" with
    | JNull => Ok None
    | v =>
        try_except_value_type
          (x <- py_float v ;; Ok (Some (py_round x 2)))
    end
  else Ok None.

Definition compute_wall_clock (task_id : json)
    (cost_rec balance_rec : option record) : result (option Q) :=
  r1 <- wall_clock_from_cost cost_rec ;;
  match r1 with
  | Some secs => Ok (Some secs)
  | None =>
      r2 <- wall_clock_from_balance balance_rec ;;
      match r2 with
      | Some secs => Ok (Some secs)
      | None => Ok None
      end
  end.

(** [float(income_rec.get(k, 0.0)) if income_rec else 0.0]. *)
Definition income_float (income_rec : option record) (k : string)
  : result Q :=
  match income_rec with
  | Some ((_ :: _) as d) => py_float (get_default d k (JFloat 0))
  | _ => Ok 0
  end.

(** [now] is what [datetime.now().isoformat()] returns when this call
    evaluates it. *)
Definition derive_record (now : string) (task_id : json)
    (task_rec : record) (cost_rec income_rec balance_rec : option record)
  : result completion :=
  let date :=
    py_or (py_or (py_or (get task_rec "date") (get_if cost_rec "date"))
                 (get_if income_rec "date"))
          (JStr "") in
  let work_submitted :=
    match income_rec with Some _ => true | None => false end in
  evaluation_score <- income_float income_rec "evaluation_score" ;;
  money_earned <- income_float income_rec "actual_payment" ;;
  wall_clock <- compute_wall_clock task_id cost_rec balance_rec ;;
  let timestamp :=
    if rec_truthy cost_rec && truthy (get_if cost_rec "timestamp_end")
    then get_if cost_rec "timestamp_end"
    else if rec_truthy income_rec && truthy (get_if income_rec "timestamp")
    then get_if income_rec "timestamp"
    else JNull in
  let timestamp :=
    match timestamp with
    | JNull => JStr now
    | t => t
    end in
  Ok {| task_id := task_id;
        date := date;
        attempt := 1;
        work_submitted := work_submitted;
        evaluation_score := py_round evaluation_score 4;
        money_earned := py_round money_earned 4;
        wall_clock_seconds := wall_clock;
        timestamp := timestamp;
        _derived := true |}.

(** *** Sorting

    [derived.sort(key=lambda r: r["date"])].  [list.sort] is stable
    and decides with [key(item) < key(other)] only; an exception of a
    comparison aborts it.  It is written here as the insertion sort
    CPython runs on short lists: each item, in list order, goes into
    the sorted prefix to the right of every item it is not less
    than. *)

Fixpoint insert_by_date (x : completion) (sorted : list completion)
  : result (list completion) :=
  match sorted with
  | [] => Ok [x]
  | y :: rest =>
      lt <- py_lt (date x) (date y) ;;
      if (lt : bool) then Ok (x :: y :: rest)
      else rest' <- insert_by_date x rest ;; Ok (y :: rest')
  end.

Definition sort_by_date (l : list completion) : result (list completion) :=
  fold_left (fun acc x => sorted <- acc ;; insert_by_date x sorted) l (Ok []).

(** *** The derivation *)

(** The loop over [tasks.items()]; [i] counts the items visited, and
    [clock i] is the time a clock read during item [i] would give. *)
Fixpoint derive_loop (clock : nat -> string) (i : nat)
    (items : pydict record)
    (cost_records income_records balance_records : pydict record)
  : result (list completion) :=
  match items with
  | [] => Ok []
  | (task_id, task_rec) :: rest =>
      let cost_rec := pd_get task_id cost_records in
      let income_rec := pd_get task_id income_records in
      let balance_rec := pd_get task_id balance_records in
      match income_rec with
      | None =>
          derive_loop clock (S i) rest
            cost_records income_records balance_records
      | Some _ =>
          rec <- derive_record (clock i) task_id task_rec
                   cost_rec income_rec balance_rec ;;
          derived <- derive_loop clock (S i) rest
                       cost_records income_records balance_records ;;
          Ok (rec :: derived)
      end
  end.

(** [os.makedirs(out_path.parent, exist_ok=True)] and the [open(..., "w")]
    block: the file is replaced by one line per record. *)
Definition write_completions (dir : agent_dir) (derived : list completion)
  : agent_dir :=
  {| work_tasks := work_tasks dir;
     economic_token_costs := economic_token_costs dir;
     economic_balance := economic_balance dir;
     economic_exists := true;
     economic_task_completions :=
       Some (map (fun r => Parsed (completion_json r)) derived) |}.

(** Returns the derived list and the directory as the run leaves it. *)
Definition derive_task_completions (clock : nat -> string)
    (dir : agent_dir) (dry_run : bool)
  : result (list completion * agent_dir) :=
  tasks <- load_tasks dir ;;
  match tasks with
  | [] => Ok ([], dir)
  | _ :: _ =>
      indexes <- load_token_costs dir ;;
      let (cost_records, income_records) :=
        (indexes : pydict record * pydict record) in
      balance_records <- load_balance dir ;;
      derived <- derive_loop clock 0 tasks
                   cost_records income_records balance_records ;;
      derived <- sort_by_date derived ;;
      if dry_run then Ok (derived, dir)
      else Ok (derived, write_completions dir derived)
  end.

(** [main]; [root] is [None] when the directory given on the command
    line does not exist. *)
Definition main (clock : nat -> string) (root : option agent_dir)
    (dry_run : bool) : termination * option agent_dir :=
  match root with
  | None => (Exit 1, None)
  | Some dir =>
      match derive_task_completions clock dir dry_run with
      | Ok (_, dir') => (Exit 0, Some dir')
      | Raise e => (Uncaught e, Some dir)
      end
  end.

End Derivation.

(** ** Two parsers to run the script on concrete logs

    [iso_seconds] reads [YYYY-MM-DDTHH:MM:SS] (or a space for the [T]),
    the form the agent's logger writes and every version of
    [datetime.fromisoformat] reads as a naive datetime;
    [decimal_float] reads an optional sign, digits and an optional
    fraction, which [float] reads as that decimal. *)

Definition digit_of (c : ascii) : option Z :=
  let n := Z.of_N (N_of_ascii c) in
  if ((48 <=? n) && (n <=? 57))%Z then Some (n - 48)%Z else None.

Fixpoint digits_value (cs : list ascii) (acc : Z) : option Z :=
  match cs with
  | [] => Some acc
  | c :: rest =>
      match digit_of c with
      | Some d => digits_value rest (10 * acc + d)%Z
      | None => None
      end
  end.

Definition number_of (cs : list ascii) : option Z :=
  match cs with
  | [] => None
  | _ => digits_value cs 0
  end.

Definition is_leap (y : Z) : bool :=
  ((y mod 4 =? 0) && (negb (y mod 100 =? 0) || (y mod 400 =? 0)))%Z.

Definition days_in_month (y m : Z) : Z :=
  if (m =? 2)%Z then (if is_leap y then 29 else 28)%Z
  else if ((m =? 4) || (m =? 6) || (m =? 9) || (m =? 11))%Z then 30%Z
  else 31%Z.

(** Days from 1970-01-01 to the civil date [y-m-d]. *)
Definition days_from_civil (y m d : Z) : Z :=
  let y' := (if m <=? 2 then y - 1 else y)%Z in
  let era := (y' / 400)%Z in
  let yoe := (y' - era * 400)%Z in
  let mp := ((m + 9) mod 12)%Z in
  let doy := ((153 * mp + 2) / 5 + d - 1)%Z in
  let doe := (yoe * 365 + yoe / 4 - yoe / 100 + doy)%Z in
  (era * 146097 + doe - 719468)%Z.

Definition civil_datetime (y m d hh mm ss : Z) : option datetime :=
  if ((1 <=? y) && (1 <=? m) && (m <=? 12) && (1 <=? d)
      && (d <=? days_in_month y m)
      && (hh <? 24) && (mm <? 60) && (ss <? 60))%Z
  then Some {| dt_micros :=
                 ((((days_from_civil y m d * 24 + hh) * 60 + mm) * 60 + ss)
                  * 1000000)%Z;
               dt_offset := None |}
  else None.

Definition is_date_time_sep (c : ascii) : bool :=
  (Ascii.eqb c "T" || Ascii.eqb c " ")%char.

Definition iso_seconds (s : string) : option datetime :=
  match list_ascii_of_string s with
  | [y1; y2; y3; y4; "-"; m1; m2; "-"; d1; d2; sep;
     h1; h2; ":"; n1; n2; ":"; s1; s2]%char =>
      if is_date_time_sep sep then
        match number_of [y1; y2; y3; y4], number_of [m1; m2],
              number_of [d1; d2], number_of [h1; h2],
              number_of [n1; n2], number_of [s1; s2] with
        | Some y, Some m, Some d, Some hh, Some mm, Some ss =>
            civil_datetime y m d hh mm ss
        | _, _, _, _, _, _ => None
        end
      else None
  | _ => None
  end.

Fixpoint split_at_dot (cs : list ascii) : list ascii * option (list ascii) :=
  match cs with
  | [] => ([], None)
  | c :: rest =>
      if Ascii.eqb c "." then ([], Some rest)
      else let (a, b) := split_at_dot rest in (c :: a, b)
  end.

Definition unsigned_decimal (cs : list ascii) : option Q :=
  match split_at_dot cs with
  | (ip, None) =>
      match number_of ip with
      | Some n => Some (inject_Z n)
      | None => None
      end
  | (ip, Some fp) =>
      match number_of ip, number_of fp with
      | Some n, Some f =>
          let s := (10 ^ Z.of_nat (List.length fp))%Z in
          Some (Qred (Qmake (n * s + f) (Z.to_pos s)))
      | _, _ => None
      end
  end.

Definition decimal_float (s : string) : option Q :=
  match list_ascii_of_string s with
  | "-"%char :: cs =>
      match unsigned_decimal cs with
      | Some q => Some (Qopp q)
      | None => None
      end
  | "+"%char :: cs => unsigned_decimal cs
  | cs => unsigned_decimal cs
  end.

(** The script with these two parsers. *)
Definition run : (nat -> string) -> agent_dir -> bool
                 -> result (list completion * agent_dir) :=
  derive_task_completions iso_seconds decimal_float.

(** A clock for the examples; no example below reads it unless it says
    so. *)
Definition noon : nat -> string := fun _ => "2024-06-01T12:00:00"%string.

(** ** What the specification says, in terms of the log files *)

(** The records a log contributes: none when the file is missing. *)
Definition records_of (f : option (list line)) : list json :=
  match f with
  | Some lines => load_jsonl lines
  | None => []
  end.

Definition task_records (dir : agent_dir) : list json :=
  records_of (work_tasks dir).

Definition token_records (dir : agent_dir) : list json :=
  records_of (economic_token_costs dir).

Definition balance_records_of (dir : agent_dir) : list json :=
  records_of (economic_balance dir).

(** [rec] is a record of the kind [sel] for the task identifier [T]. *)
Definition record_for (sel : record -> bool) (T : json) (rec : json) : bool :=
  match rec with
  | JDict r => truthy (get r "task_id") && py_eq T (get r "task_id") && sel r
  | _ => false
  end.

Definition any_record (r : record) : bool := true.

(** Some record of the kind [sel] for [T] exists in the file. *)
Definition has_record (sel : record -> bool) (T : json) (recs : list json)
  : bool :=
  existsb (record_for sel T) recs.

(** The record of the kind [sel] for [T] that comes last in the file. *)
Definition last_record (sel : record -> bool) (T : json) (recs : list json)
  : option record :=
  match find (record_for sel T) (rev recs) with
  | Some (JDict r) => Some r
  | _ => None
  end.

(** A task assignment for [T] exists in [work/tasks.jsonl]. *)
Definition assigned (dir : agent_dir) (T : json) : bool :=
  has_record any_record T (task_records dir).

(** An income record for [T] exists in [economic/token_costs.jsonl]. *)
Definition submitted (dir : agent_dir) (T : json) : bool :=
  has_record is_income T (token_records dir).

(** [out] holds a derived record for [T]. *)
Definition derived_for (out : list completion) (T : json) : Prop :=
  exists r, In r out /\ py_eq T (task_id r) = true.

(** No two keys of the index are equal. *)
Definition unique_keys {V : Type} (d : pydict V) : Prop :=
  NoDup (map (fun kv => canon (fst kv)) d).

(** First candidate that is true in Python's sense, else [default]. *)
Fixpoint first_truthy (candidates : list json) (default : json) : json :=
  match candidates with
  | [] => default
  | v :: rest => if truthy v then v else first_truthy rest default
  end.

(** First candidate that is present and not null, else [default]. *)
Fixpoint first_present (candidates : list (option json)) (default : json)
  : json :=
  match candidates with
  | [] => default
  | Some JNull :: rest | None :: rest => first_present rest default
  | Some v :: rest => v
  end.

(** The field [k] of an optional record. *)
Definition field_of (r : option record) (k : string) : option json :=
  match r with
  | Some d => lookup k d
  | None => None
  end.

Definition field_or_null (r : option record) (k : string) : json :=
  match field_of r k with
  | Some v => v
  | None => JNull
  end.

(** The date order of the output: [b] is not less than [a]. *)
Definition date_le (a b : json) : Prop := py_lt b a = Ok false.

Definition non_decreasing_by_date (out : list completion) : Prop :=
  StronglySorted (fun r s => date_le (date r) (date s)) out.

(** The records of [l] whose date equals [k], in the order of [l]. *)
Definition dated (k : json) (l : list completion) : list completion :=
  filter (fun r => py_eq (date r) k) l.

Section Specification.

Variable fromisoformat : string -> option datetime.
Variable float_of_str : string -> option Q.

(** The field [k] of the cost record read as an ISO-8601 date-time. *)
Definition parsed_timestamp (r : option record) (k : string)
  : option datetime :=
  match field_of r k with
  | Some (JStr s) => fromisoformat s
  | _ => None
  end.

(** End minus start, in seconds, when both parse and can be
    subtracted. *)
Definition cost_seconds (cost_rec : option record) : option Q :=
  match parsed_timestamp cost_rec "timestamp_start",
        parsed_timestamp cost_rec "timestamp_end" with
  | Some t_start, Some t_end =>
      match total_seconds_between t_end t_start with
      | Ok secs => Some secs
      | Raise _ => None
      end
  | _, _ => None
  end.

(** Step a of the fallback: the cost duration when it is not negative. *)
Definition cost_step (cost_rec : option record) : option Q :=
  match cost_seconds cost_rec with
  | Some secs => if Qle_bool 0 secs then Some (py_round secs 2) else None
  | None => None
  end.

(** Step b: the balance record's completion time when [float] takes it. *)
Definition balance_step (balance_rec : option record) : option Q :=
  match field_of balance_rec "task_completion_time_seconds" with
  | Some v =>
      match py_float float_of_str v with
      | Ok x => Some (py_round x 2)
      | Raise _ => None
      end
  | None => None
  end.

Definition wall_clock_fallback (cost_rec balance_rec : option record)
  : option Q :=
  match cost_step cost_rec with
  | Some secs => Some secs
  | None => balance_step balance_rec
  end.

(** The balance record's completion time is an int beyond the range of
    a float. *)
Definition balance_overflows (balance_rec : option record) : bool :=
  match field_of balance_rec "task_completion_time_seconds" with
  | Some (JInt z) => float_overflow z
  | _ => false
  end.

(** Every result of [compute_wall_clock] that is not null is at least
    zero. *)
Definition wall_clock_never_negative (cost_rec balance_rec : option record)
  : Prop :=
  forall task_id secs,
    compute_wall_clock fromisoformat float_of_str task_id cost_rec balance_rec
    = Ok (Some secs) ->
    (0 <= secs)%Q.

(** The record takes its timestamp from the logs, not from the clock. *)
Definition timestamp_logged (cost_rec income_rec : option record) : bool :=
  (rec_truthy cost_rec && truthy (get_if cost_rec "timestamp_end"))
  || (rec_truthy income_rec && truthy (get_if income_rec "timestamp")).

(** Every task of the task index with an income record has a logged
    timestamp (vacuous when a loader raises). *)
Definition all_timestamps_logged (dir : agent_dir) : bool :=
  match load_tasks dir, load_token_costs dir with
  | Ok tasks, Ok (cost_records, income_records) =>
      forallb (fun kv : json * record =>
                 match pd_get (fst kv) income_records with
                 | Some inc =>
                     timestamp_logged (pd_get (fst kv) cost_records) (Some inc)
                 | None => true
                 end) tasks
  | _, _ => true
  end.

(** What a run in write mode leaves at [economic/task_completions.jsonl]
    when it writes [out]. *)
Definition written (out : list completion) : option (list line) :=
  Some (map (fun r => Parsed (completion_json r)) out).

End Specification.

(** ** Sample logs *)

Definition task_line (tid date : string) : line :=
  Parsed (JDict [("task_id", JStr tid); ("date", JStr date)]%string).

Definition income_line (tid : string) (score payment : json) : line :=
  Parsed (JDict [("task_id", JStr tid); ("type", JStr "work_income");
                 ("evaluation_score", score);
                 ("actual_payment", payment);
                 ("timestamp", JStr "2024-01-01T10:06:00")]%string).

Definition cost_line (tid t_start t_end : string) : line :=
  Parsed (JDict [("task_id", JStr tid); ("type", JStr "llm_call");
                 ("timestamp_start", JStr t_start);
                 ("timestamp_end", JStr t_end)]%string).

Definition balance_line (tid : string) (seconds : json) : line :=
  Parsed (JDict [("task_id", JStr tid); ("date", JStr "2024-01-01");
                 ("task_completion_time_seconds", seconds)]%string).

(** A directory with only its three logs. *)
Definition logs (tasks token_costs balance : option (list line)) : agent_dir :=
  {| work_tasks := tasks;
     economic_token_costs := token_costs;
     economic_balance := balance;
     economic_exists :=
       match token_costs, balance with None, None => false | _, _ => true end;
     economic_task_completions := None |}.

(** The three scenarios of the specification in one directory: T1 with
    a task, an income and a cost record; T2 with a task only; T3 with a
    task and an income record. *)
Definition scenario_dir : agent_dir :=
  logs (Some [task_line "T1" "2024-01-01"; task_line "T2" "2024-01-02";
              task_line "T3" "2024-01-03"])
       (Some [cost_line "T1" "2024-01-01T10:00:00" "2024-01-01T10:05:00";
              income_line "T1" (JFloat (4 # 5)) (JFloat 5);
              Malformed; Blank;
              income_line "T3" (JFloat (1 # 2)) (JInt 2)])
       None.

(** How two comparisons in a row combine; with it the transitivity of
    [<], of [<=] and of their mixtures is one statement: if neither
    step goes down, the two steps combine. *)
Definition seq_comparison (c1 c2 : comparison) : comparison :=
  match c1 with
  | Eq => c2
  | _ => c1
  end.

(** ** The three indexers as one fold

    Each indexer keeps, under its task identifier, every record of one
    kind; [index_by sel] is that fold for the kind [sel]. *)

Fixpoint index_by (sel : record -> bool) (recs : list json)
    (acc : pydict record) : result (pydict record) :=
  match recs with
  | [] => Ok acc
  | rec :: rest =>
      r <- as_record rec ;;
      let tid := get r "task_id" in
      if truthy tid && sel r then
        acc' <- pd_store acc tid r ;;
        index_by sel rest acc'
      else index_by sel rest acc
  end.

(** The key is in the index. *)
Definition pd_mem {V : Type} (k : json) (d : pydict V) : bool :=
  match pd_get k d with
  | Some _ => true
  | None => false
  end.

(** ** Readings of the specification that the script does not meet

    Each is stated for a run with given parsers; the properties below
    refute it on a sample log. *)

(** A derived record for [T] exists exactly when an income record for
    [T] exists. *)
Definition derived_iff_income
    (fromisoformat : string -> option datetime)
    (float_of_str : string -> option Q) (dir : agent_dir) (T : json) : Prop :=
  forall clock dry_run out dir',
    derive_task_completions fromisoformat float_of_str clock dir dry_run
    = Ok (out, dir') ->
    (derived_for out T <-> submitted dir T = true).

(** The date is the first candidate that is present and not null. *)
Definition date_is_first_present
    (fromisoformat : string -> option datetime)
    (float_of_str : string -> option Q)
    (task_rec : record) (cost_rec income_rec balance_rec : option record)
  : Prop :=
  forall now task_id r,
    derive_record fromisoformat float_of_str now task_id task_rec
      cost_rec income_rec balance_rec = Ok r ->
    date r = first_present [lookup "date" task_rec;
                            field_of cost_rec "date";
                            field_of income_rec "date"] (JStr "").

(** A run in write mode leaves [economic/] in place and the derived set
    in the output file. *)
Definition write_mode_always_writes
    (fromisoformat : string -> option datetime)
    (float_of_str : string -> option Q) (dir : agent_dir) : Prop :=
  forall clock out dir',
    derive_task_completions fromisoformat float_of_str clock dir false
    = Ok (out, dir') ->
    economic_exists dir' = true
    /\ economic_task_completions dir' = written out.

(** ** More sample logs *)

(** An income record for T1, and no task log. *)
Definition income_only_dir : agent_dir :=
  logs None (Some [income_line "T1" (JFloat (4 # 5)) (JFloat 5)]) None.

(** T1 is assigned and has an income record; T9 has an income record
    and no assignment. *)
Definition orphan_dir : agent_dir :=
  logs (Some [task_line "T1" "2024-01-01"])
       (Some [income_line "T9" (JFloat 1) (JFloat 9);
              income_line "T1" (JFloat (4 # 5)) (JFloat 5)])
       None.

(** T1 has two income records, scored 0.2 and then 0.9; T2 and T3 are
    both dated 2024-01-01, before T1, and T3 comes first in the task
    log. *)
Definition retry_dir : agent_dir :=
  logs (Some [task_line "T1" "2024-01-05"; task_line "T3" "2024-01-01";
              task_line "T2" "2024-01-01"])
       (Some [income_line "T1" (JFloat (1 # 5)) (JFloat 1);
              income_line "T2" (JFloat (1 # 2)) (JFloat 2);
              cost_line "T1" "2024-01-05T09:00:00" "2024-01-05T09:00:30";
              income_line "T1" (JFloat (9 # 10)) (JFloat 5);
              income_line "T3" (JFloat (3 # 10)) (JFloat 3)])
       (Some [balance_line "T1" (JFloat (45 # 1));
              balance_line "T2" (JStr "12.5")]).

(** A task record with an empty date, the cost record dated. *)
Definition undated_task : record :=
  [("task_id", JStr "T1"); ("date", JStr "")]%string.

Definition dated_cost : record :=
  [("task_id", JStr "T1"); ("date", JStr "2024-01-02");
   ("timestamp_start", JStr "2024-01-02T10:00:00");
   ("timestamp_end", JStr "2024-01-02T10:05:00")]%string.

Definition plain_income : record :=
  [("task_id", JStr "T1"); ("type", JStr "work_income");
   ("evaluation_score", JFloat (4 # 5)); ("actual_payment", JFloat 5)]%string.

(** A balance record with a negative completion time. *)
Definition negative_balance : record :=
  [("task_id", JStr "T1"); ("date", JStr "2024-01-01");
   ("task_completion_time_seconds", JInt (-5))]%string.

(** T1 is assigned; its income record has a null evaluation score. *)
Definition null_score_dir : agent_dir :=
  logs (Some [task_line "T1" "2024-01-01"])
       (Some [income_line "T1" JNull (JFloat 5)])
       None.

(** No task log; [economic/] holds the output of an earlier run. *)
Definition stale_dir : agent_dir :=
  {| work_tasks := None;
     economic_token_costs := None;
     economic_balance := None;
     economic_exists := true;
     economic_task_completions :=
       Some [Parsed (JDict [("task_id", JStr "T0")]%string)] |}.

(** No log at all. *)
Definition empty_dir : agent_dir := logs None None None.

(** ** Reading the result of a run on a sample *)

(** The list a run returns ([[]] if it raises). *)
Definition returned (r : result (list completion * agent_dir))
  : list completion :=
  match r with
  | Ok (out, _) => out
  | Raise _ => []
  end.

(** The directory as a run on [dir] leaves it. *)
Definition left_by (dir : agent_dir)
    (r : result (list completion * agent_dir)) : agent_dir :=
  match r with
  | Ok (_, dir') => dir'
  | Raise _ => dir
  end.

(** The index a loader returns ([[]] if it raises). *)
Definition loaded (r : result (pydict record)) : pydict record :=
  match r with
  | Ok d => d
  | Raise _ => []
  end.

Definition loaded_pair (r : result (pydict record * pydict record))
  : pydict record * pydict record :=
  match r with
  | Ok p => p
  | Raise _ => ([], [])
  end.

(** The record [derive_record] returns on the undated task. *)
Definition undated_derived : completion :=
  {| task_id := JStr "T1";
     date := JStr "2024-01-02";
     attempt := 1;
     work_submitted := true;
     evaluation_score := 4 # 5;
     money_earned := 5;
     wall_clock_seconds := Some 300;
     timestamp := JStr "2024-01-02T10:05:00";
     _derived := true |}.

(** Another clock. *)
Definition midnight : nat -> string :=
  fun _ => "2025-01-01T00:00:00"%string.

(** T1 is assigned; its income record has a score that is not a
    number. *)
Definition text_score_dir : agent_dir :=
  logs (Some [task_line "T1" "2024-01-01"])
       (Some [income_line "T1" (JStr "n/a") (JFloat 5)])
       None.

(** The task log holds a line that is valid JSON and not an object. *)
Definition array_line_dir : agent_dir :=
  logs (Some [task_line "T1" "2024-01-01"; Parsed (JList [JInt 1; JInt 2])])
       None None.

(** T1 is dated by a string and T2 by a number; both have an income
    record. *)
Definition mixed_dates_dir : agent_dir :=
  logs (Some [task_line "T1" "2024-01-01";
              Parsed (JDict [("task_id", JStr "T2");
                             ("date", JInt 20240102)]%string)])
       (Some [income_line "T1" (JFloat (4 # 5)) (JFloat 5);
              income_line "T2" (JFloat (1 # 2)) (JFloat 2)])
       None.

(** * The rest of the script *)

(** ** The warnings of [load_jsonl]

    [for i, line in enumerate(f, 1)]: a line that [json.loads] rejects
    is reported with its number [i]; [malformed_line_numbers i lines]
    is the list of the numbers reported when the first line of [lines]
    has number [i]. *)

Fixpoint malformed_line_numbers (i : nat) (lines : list line) : list nat :=
  match lines with
  | [] => []
  | Malformed :: rest => i :: malformed_line_numbers (S i) rest
  | Blank :: rest => malformed_line_numbers (S i) rest
  | Parsed _ :: rest => malformed_line_numbers (S i) rest
  end.

Definition is_blank (l : line) : bool :=
  match l with
  | Blank => true
  | _ => false
  end.

(** ** The summary of a run *)

(** The three counters of the loop over [tasks.items()]. *)
Record counters : Type := {
  missing_cost : nat;
  missing_income : nat;
  missing_wall : nat
}.

Definition no_counts : counters :=
  {| missing_cost := 0; missing_income := 0; missing_wall := 0 |}.

Definition count_missing_income (n : counters) : counters :=
  {| missing_cost := missing_cost n;
     missing_income := S (missing_income n);
     missing_wall := missing_wall n |}.

Definition count_missing_cost (n : counters) : counters :=
  {| missing_cost := S (missing_cost n);
     missing_income := missing_income n;
     missing_wall := missing_wall n |}.

Definition count_missing_wall (n : counters) : counters :=
  {| missing_cost := missing_cost n;
     missing_income := missing_income n;
     missing_wall := S (missing_wall n) |}.

(** The values the report prints, before they are formatted: the
    number of derived records, the number of tasks, the tasks skipped
    for want of an income record, the sum earned, the mean score, and
    the records without a cost record and without a wall-clock value. *)
Record summary : Type := {
  derived_count : nat;
  total_tasks : nat;
  not_submitted : nat;
  total_earned : Q;
  avg_score : Q;
  missing_cost_rec : nat;
  missing_wall_clock : nat;
  submitted_count : nat
}.

(** [sum(xs)] on floats: from 0, left to right. *)
Definition py_sum (xs : list Q) : Q := fold_left Qplus xs 0.

Section Report.

Variable fromisoformat : string -> option datetime.
Variable float_of_str : string -> option Q.

(** The loop over [tasks.items()] with its list and its counters as
    the script keeps them: [derived] and [n] are their values on entry. *)
Fixpoint derive_loop_counting (clock : nat -> string) (i : nat)
    (items : pydict record)
    (cost_records income_records balance_records : pydict record)
    (derived : list completion) (n : counters)
  : result (list completion * counters) :=
  match items with
  | [] => Ok (derived, n)
  | (task_id, task_rec) :: rest =>
      let cost_rec := pd_get task_id cost_records in
      let income_rec := pd_get task_id income_records in
      let balance_rec := pd_get task_id balance_records in
      match income_rec with
      | None =>
          derive_loop_counting clock (S i) rest
            cost_records income_records balance_records
            derived (count_missing_income n)
      | Some _ =>
          let n := match cost_rec with
                   | None => count_missing_cost n
                   | Some _ => n
                   end in
          rec <- derive_record fromisoformat float_of_str (clock i)
                   task_id task_rec cost_rec income_rec balance_rec ;;
          let n := match wall_clock_seconds rec with
                   | None => count_missing_wall n
                   | Some _ => n
                   end in
          derive_loop_counting clock (S i) rest
            cost_records income_records balance_records
            (derived ++ [rec]) n
      end
  end.

(** The report block, on the sorted list. *)
Definition report (tasks : pydict record) (derived : list completion)
    (n : counters) : summary :=
  let submitted := List.length (filter work_submitted derived) in
  let total_earned := py_sum (map money_earned derived) in
  let avg_score :=
    match submitted with
    | O => 0
    | S _ =>
        py_sum (map evaluation_score (filter work_submitted derived))
        / inject_Z (Z.of_nat submitted)
    end in
  {| derived_count := List.length derived;
     total_tasks := List.length tasks;
     not_submitted := missing_income n;
     total_earned := total_earned;
     avg_score := avg_score;
     missing_cost_rec := missing_cost n;
     missing_wall_clock := missing_wall n;
     submitted_count := submitted |}.

(** [derive_task_completions] up to its report: the sorted list and the
    summary printed, [None] when the run returns early on an empty task
    index and prints no summary. *)
Definition derive_summary (clock : nat -> string) (dir : agent_dir)
  : result (list completion * option summary) :=
  tasks <- load_tasks dir ;;
  match tasks with
  | [] => Ok ([], None)
  | _ :: _ =>
      indexes <- load_token_costs dir ;;
      let (cost_records, income_records) :=
        (indexes : pydict record * pydict record) in
      balance_records <- load_balance dir ;;
      looped <- derive_loop_counting clock 0 tasks
                  cost_records income_records balance_records [] no_counts ;;
      let (derived, n) := (looped : list completion * counters) in
      derived <- sort_by_date derived ;;
      Ok (derived, Some (report tasks derived n))
  end.

End Report.

(** ** More readings of the logs *)

(** The list a run returns, or the exception it raises. *)
Definition outcome (r : result (list completion * agent_dir))
  : result (list completion) :=
  match r with
  | Ok (out, _) => Ok out
  | Raise e => Raise e
  end.









(** The timestamps a record can take from the logs, in order. *)
Definition timestamp_candidates (cost_rec income_rec : option record)
  : list json :=
  [field_or_null cost_rec "timestamp_end";
   field_or_null income_rec "timestamp"].

(** T1 has an income record and neither a cost record nor a timestamp;
    T2 has no income record; the logs have malformed and blank lines. *)
Definition sparse_dir : agent_dir :=
  logs (Some [task_line "T1" "2024-01-01"; Blank; task_line "T2" "2024-01-02"])
       (Some [Malformed;
              Parsed (JDict [("task_id", JStr "T1");
                             ("type", JStr "work_income");
                             ("evaluation_score", JFloat (3 # 4))]%string);
              Blank; Malformed])
       (Some [Malformed]).

(** The same records with no other line, and no balance log. *)
Definition sparse_clean_dir : agent_dir :=
  logs (Some [task_line "T1" "2024-01-01"; task_line "T2" "2024-01-02"])
       (Some [Parsed (JDict [("task_id", JStr "T1");
                             ("type", JStr "work_income");
                             ("evaluation_score", JFloat (3 # 4))]%string)])
       None.

(** The record has no wall-clock value. *)
Definition no_wall_clock (r : completion) : bool :=
  match wall_clock_seconds r with
  | None => true
  | Some _ => false
  end.

(** How the counters of the loop stand after the items [items], given
    the records [derived] it derived and the counters [n] on entry. *)
Definition tally (items : pydict record)
    (cost_records income_records : pydict record)
    (derived : list completion) (n : counters) : counters :=
  {| missing_cost :=
       missing_cost n
       + List.length
           (filter (fun kv : json * record =>
                      pd_mem (fst kv) income_records
                      && negb (pd_mem (fst kv) cost_records)) items);
     missing_income :=
       missing_income n
       + List.length
           (filter (fun kv : json * record =>
                      negb (pd_mem (fst kv) income_records)) items);
     missing_wall :=
       missing_wall n
       + List.length
           (filter no_wall_clock derived) |}.

(** The index entry [r] found under [T]: a record of the file, of the
    kind [sel], whose own task identifier is true and equal to [T]. *)
Definition stored_as (sel : record -> bool) (recs : list json)
    (T : json) (r : record) : Prop :=
  In (JDict r) recs
  /\ truthy (get r "task_id") = true
  /\ py_eq T (get r "task_id") = true
  /\ sel r = true.

(** ** The order of an index *)

(** The keys of an index, as normal forms, in iteration order. *)
Definition keys {V : Type} (d : pydict V) : list cval :=
  map (fun kv => canon (fst kv)) d.

(** [seen] with [x] at its end unless [x] is in it. *)
Definition add_once (seen : list cval) (x : cval) : list cval :=
  if existsb (cval_eqb x) seen then seen else seen ++ [x].

(** The values of [xs] in the order of their first occurrence. *)
Definition first_occurrences (xs : list cval) : list cval :=
  fold_left add_once xs [].

(** The task identifier under which an indexer of the kind [sel]
    stores the record, if it stores it. *)
Definition stored_id (sel : record -> bool) (rec : json) : list cval :=
  match rec with
  | JDict r =>
      if truthy (get r "task_id") && sel r
      then [canon (get r "task_id")]
      else []
  | _ => []
  end.

Definition stored_ids (sel : record -> bool) (recs : list json) : list cval :=
  flat_map (stored_id sel) recs.

(** T1 is assigned, then T2, then T1 again with another date. *)
Definition reassigned_dir : agent_dir :=
  logs (Some [task_line "T1" "2024-01-01"; task_line "T2" "2024-01-02";
              task_line "T1" "2024-01-03"])
       None None.

(** ** The clock and the other fields *)

(** The record with its timestamp blanked. *)
Definition forget_timestamp (r : completion) : completion :=
  {| task_id := task_id r;
     date := date r;
     attempt := attempt r;
     work_submitted := work_submitted r;
     evaluation_score := evaluation_score r;
     money_earned := money_earned r;
     wall_clock_seconds := wall_clock_seconds r;
     timestamp := JNull;
     _derived := _derived r |}.

Definition result_map {A B : Type} (f : A -> B) (r : result A) : result B :=
  match r with
  | Ok a => Ok (f a)
  | Raise e => Raise e
  end.

(** T1 has an income record with no timestamp and no cost record: its
    timestamp is read from the clock. *)
Definition unstamped_dir : agent_dir :=
  logs (Some [task_line "T1" "2024-01-01"])
       (Some [Parsed (JDict [("task_id", JStr "T1");
                             ("type", JStr "work_income");
                             ("evaluation_score", JFloat (3 # 4))]%string)])
       None.

(** * Properties *)

(** ** The result monad *)

Lemma bind_ok {A B : Type} (m : result A) (k : A -> result B) (b : B) :
  bind m k = Ok b -> exists a, m = Ok a /\ k a = Ok b.
Proof.
  destruct m as [a | e]; simpl; intros H; [eauto | discriminate].
Qed.

(** ** Equality of normal forms *)

Lemma cval_ind_nested (P : cval -> Prop)
    (Hnull : P CNull)
    (Hnum : forall q, P (CNum q))
    (Hstr : forall s, P (CStr s))
    (Hlist : forall l, Forall P l -> P (CList l))
    (Hdict : forall d, Forall (fun kv => P (snd kv)) d -> P (CDict d)) :
  forall a, P a.
Proof.
  fix IH 1.
  intros [ | q | s | l | d].
  - exact Hnull.
  - apply Hnum.
  - apply Hstr.
  - apply Hlist. induction l as [ | x l IHl]; constructor; [apply IH | exact IHl].
  - apply Hdict. induction d as [ | [k x] d IHd]; constructor;
      [apply IH | exact IHd].
Qed.

Lemma Q_eqb_eq (p q : Q) : Q_eqb p q = true <-> p = q.
Proof.
  unfold Q_eqb. destruct p as [a b], q as [c d]; simpl.
  rewrite andb_true_iff, Z.eqb_eq, Pos.eqb_eq.
  split; [intros [-> ->]; reflexivity | intros H; inversion H; auto].
Qed.

Lemma list_eqb_eq {A : Type} (f : A -> A -> bool) (l : list A) :
  Forall (fun x => forall y, f x y = true <-> x = y) l ->
  forall m, list_eqb f l m = true <-> l = m.
Proof.
  induction 1 as [ | x l Hx _ IH]; intros [ | y m]; simpl;
    try (split; [discriminate | discriminate]); try tauto.
  rewrite andb_true_iff, Hx, IH.
  split; [intros [-> ->]; reflexivity | intros H; inversion H; auto].
Qed.

Lemma cval_eqb_eq (a b : cval) : cval_eqb a b = true <-> a = b.
Proof.
  revert b. induction a as [ | p | s | l IH | d IH] using cval_ind_nested;
    intros [ | q | t | m | e]; simpl;
    try (split; [discriminate | discriminate]); try tauto.
  - rewrite Q_eqb_eq. split; [intros ->; reflexivity | intros H; inversion H; auto].
  - rewrite String.eqb_eq.
    split; [intros ->; reflexivity | intros H; inversion H; auto].
  - rewrite (list_eqb_eq cval_eqb l IH).
    split; [intros ->; reflexivity | intros H; inversion H; auto].
  - rewrite list_eqb_eq.
    + split; [intros ->; reflexivity | intros H; inversion H; auto].
    + clear e. induction IH as [ | [k x] d Hx _ IHd]; constructor; auto.
      intros [k' y]; simpl in *.
      rewrite andb_true_iff, String.eqb_eq, Hx.
      split; [intros [-> ->]; reflexivity | intros H; inversion H; auto].
Qed.

Lemma cval_eqb_refl (a : cval) : cval_eqb a a = true.
Proof. apply cval_eqb_eq. reflexivity. Qed.

Lemma py_eq_canon (a b : json) : py_eq a b = true <-> canon a = canon b.
Proof. apply cval_eqb_eq. Qed.

Lemma py_eq_refl (a : json) : py_eq a a = true.
Proof. apply py_eq_canon. reflexivity. Qed.

Lemma py_eq_sym (a b : json) : py_eq a b = py_eq b a.
Proof.
  destruct (py_eq a b) eqn:E, (py_eq b a) eqn:F; auto.
  - apply py_eq_canon in E. symmetry in E. apply py_eq_canon in E. congruence.
  - apply py_eq_canon in F. symmetry in F. apply py_eq_canon in F. congruence.
Qed.

(** Equal keys look up and compare alike. *)
Lemma py_eq_left (a b c : json) :
  py_eq a b = true -> py_eq a c = py_eq b c.
Proof.
  intros H. apply py_eq_canon in H. unfold py_eq. rewrite H. reflexivity.
Qed.

Lemma py_eq_right (a b c : json) :
  py_eq a b = true -> py_eq c a = py_eq c b.
Proof.
  intros H. apply py_eq_canon in H. unfold py_eq. rewrite H. reflexivity.
Qed.

(** ** The order of normal forms *)

Lemma ascii_compare_refl (a : ascii) : Ascii.compare a a = Eq.
Proof. apply N.compare_refl. Qed.

Lemma string_compare_refl (s : string) : String.compare s s = Eq.
Proof.
  induction s as [ | a s IH]; simpl; [reflexivity | ].
  rewrite ascii_compare_refl. exact IH.
Qed.

Lemma ascii_compare_trans (a b c : ascii) (c1 c2 : comparison) :
  Ascii.compare a b = c1 -> Ascii.compare b c = c2 ->
  c1 <> Gt -> c2 <> Gt ->
  Ascii.compare a c = seq_comparison c1 c2.
Proof.
  unfold Ascii.compare. intros H1 H2 N1 N2.
  destruct c1; try congruence; simpl.
  - apply N.compare_eq_iff in H1. rewrite H1. exact H2.
  - apply N.compare_lt_iff in H1. apply N.compare_lt_iff.
    destruct c2; try congruence.
    + apply N.compare_eq_iff in H2. rewrite <- H2. exact H1.
    + apply N.compare_lt_iff in H2. eapply N.lt_trans; eauto.
Qed.

Lemma string_compare_trans (s t u : string) (c1 c2 : comparison) :
  String.compare s t = c1 -> String.compare t u = c2 ->
  c1 <> Gt -> c2 <> Gt ->
  String.compare s u = seq_comparison c1 c2.
Proof.
  revert t u c1 c2.
  induction s as [ | a s IH]; intros [ | b t] [ | c u] c1 c2; simpl;
    intros H1 H2 N1 N2; subst; simpl; try congruence; try reflexivity.
  destruct (Ascii.compare a b) eqn:Eab; try congruence;
    destruct (Ascii.compare b c) eqn:Ebc; try congruence.
  - rewrite (ascii_compare_trans a b c _ _ Eab Ebc) by congruence. simpl.
    apply IH with (t := t); auto.
  - rewrite (ascii_compare_trans a b c _ _ Eab Ebc) by congruence. simpl.
    destruct (String.compare s t); simpl; congruence.
  - rewrite (ascii_compare_trans a b c _ _ Eab Ebc) by congruence. reflexivity.
  - rewrite (ascii_compare_trans a b c _ _ Eab Ebc) by congruence. reflexivity.
Qed.

Lemma Qcompare_trans (p q r : Q) (c1 c2 : comparison) :
  (p ?= q)%Q = c1 -> (q ?= r)%Q = c2 ->
  c1 <> Gt -> c2 <> Gt ->
  (p ?= r)%Q = seq_comparison c1 c2.
Proof.
  intros H1 H2 N1 N2.
  destruct c1; try congruence; destruct c2; try congruence; simpl.
  - apply Qeq_alt in H1, H2. apply Qeq_alt. rewrite H1. exact H2.
  - apply Qeq_alt in H1. apply Qlt_alt in H2. apply Qlt_alt.
    rewrite H1. exact H2.
  - apply Qlt_alt in H1. apply Qeq_alt in H2. apply Qlt_alt.
    rewrite <- H2. exact H1.
  - apply Qlt_alt in H1, H2. apply Qlt_alt. eapply Qlt_trans; eauto.
Qed.

Lemma lex_cmp_refl {A : Type} (f : A -> A -> option comparison) (l : list A) :
  Forall (fun x => f x x = Some Eq) l -> lex_cmp f l l = Some Eq.
Proof.
  induction 1 as [ | x l Hx _ IH]; simpl; [reflexivity | ].
  rewrite Hx. exact IH.
Qed.

Lemma lex_cmp_antisym {A : Type} (f : A -> A -> option comparison)
    (l : list A) :
  Forall (fun x => forall y, f y x = option_map CompOpp (f x y)) l ->
  forall m, lex_cmp f m l = option_map CompOpp (lex_cmp f l m).
Proof.
  induction 1 as [ | x l Hx _ IH]; intros [ | y m]; simpl; try reflexivity.
  rewrite Hx. destruct (f x y) as [[ | | ] | ]; simpl; auto.
Qed.

Lemma lex_cmp_trans {A : Type} (f : A -> A -> option comparison)
    (l : list A) :
  Forall (fun x => forall y z c1 c2,
              f x y = Some c1 -> f y z = Some c2 ->
              c1 <> Gt -> c2 <> Gt -> f x z = Some (seq_comparison c1 c2)) l ->
  forall m n c1 c2,
    lex_cmp f l m = Some c1 -> lex_cmp f m n = Some c2 ->
    c1 <> Gt -> c2 <> Gt ->
    lex_cmp f l n = Some (seq_comparison c1 c2).
Proof.
  induction 1 as [ | x l Hx _ IH]; intros [ | y m] [ | z n] c1 c2; simpl;
    intros H1 H2 N1 N2; try congruence;
    try (injection H1 as <-; injection H2 as <-; reflexivity);
    try (injection H1 as <-; congruence);
    try (injection H2 as <-; congruence).
  - injection H1 as <-. simpl. destruct (f y z) as [[ | | ] | ]; congruence.
  - destruct (f x y) as [[ | | ] | ] eqn:Exy; try congruence;
      destruct (f y z) as [[ | | ] | ] eqn:Eyz; try congruence;
      rewrite (Hx y z _ _ Exy Eyz) by congruence; simpl.
    + eapply IH; eauto.
    + injection H2 as <-. destruct c1; simpl; congruence.
    + injection H1 as <-. reflexivity.
    + injection H1 as <-. reflexivity.
Qed.

Lemma cmp_refl (a : cval) : cmp a a = Some Eq.
Proof.
  induction a as [ | p | s | l IH | d IH] using cval_ind_nested; cbn [cmp].
  - reflexivity.
  - f_equal. apply Qeq_alt. reflexivity.
  - f_equal. apply string_compare_refl.
  - apply lex_cmp_refl. exact IH.
  - rewrite (cval_eqb_refl (CDict d)). reflexivity.
Qed.

Lemma cmp_antisym (a b : cval) : cmp b a = option_map CompOpp (cmp a b).
Proof.
  revert b. induction a as [ | p | s | l IH | d IH] using cval_ind_nested;
    intros [ | q | t | m | e]; cbn [cmp option_map]; try reflexivity.
  - rewrite <- Qcompare_antisym. reflexivity.
  - rewrite (String.compare_antisym s t).
    destruct (String.compare t s); reflexivity.
  - apply lex_cmp_antisym. exact IH.
  - destruct (cval_eqb (CDict e) (CDict d)) eqn:E1,
             (cval_eqb (CDict d) (CDict e)) eqn:E2; try reflexivity.
    + apply cval_eqb_eq in E1. symmetry in E1. apply cval_eqb_eq in E1.
      congruence.
    + apply cval_eqb_eq in E2. symmetry in E2. apply cval_eqb_eq in E2.
      congruence.
Qed.

Lemma cmp_trans (a b c : cval) (c1 c2 : comparison) :
  cmp a b = Some c1 -> cmp b c = Some c2 ->
  c1 <> Gt -> c2 <> Gt ->
  cmp a c = Some (seq_comparison c1 c2).
Proof.
  revert b c c1 c2.
  induction a as [ | p | s | l IH | d IH] using cval_ind_nested;
    intros [ | q | t | m | e] [ | r | u | n | g] c1 c2; cbn [cmp];
    intros H1 H2 N1 N2; try congruence.
  - injection H1 as <-. injection H2 as <-. reflexivity.
  - injection H1 as H1. injection H2 as H2. f_equal.
    eapply Qcompare_trans; eauto.
  - injection H1 as H1. injection H2 as H2. f_equal.
    eapply string_compare_trans; eauto.
  - eapply lex_cmp_trans; eauto.
  - destruct (cval_eqb (CDict d) (CDict e)) eqn:E1; try congruence.
    destruct (cval_eqb (CDict e) (CDict g)) eqn:E2; try congruence.
    apply cval_eqb_eq in E1, E2.
    assert (E3 : cval_eqb (CDict d) (CDict g) = true)
      by (apply cval_eqb_eq; congruence).
    rewrite E3.
    injection H1 as <-. injection H2 as <-. reflexivity.
Qed.

(** ** Python's [<] on dates *)

Lemma orderable_sym (a b : cval) : orderable a b = orderable b a.
Proof. destruct a, b; reflexivity. Qed.

Lemma orderable_trans (a b c : cval) :
  orderable a b = true -> orderable b c = true -> orderable a c = true.
Proof. destruct a, b, c; simpl; congruence. Qed.

Lemma py_lt_true (a b : json) :
  py_lt a b = Ok true <->
  orderable (canon a) (canon b) = true /\ cmp (canon a) (canon b) = Some Lt.
Proof.
  unfold py_lt. destruct (orderable (canon a) (canon b)).
  - destruct (cmp (canon a) (canon b)) as [[ | | ] | ];
      split; try tauto; try discriminate; intros [_ H]; discriminate.
  - split; [discriminate | intros [H _]; discriminate].
Qed.

Lemma py_lt_false (a b : json) :
  py_lt a b = Ok false <->
  orderable (canon a) (canon b) = true /\
  exists c, cmp (canon b) (canon a) = Some c /\ c <> Gt.
Proof.
  unfold py_lt. rewrite (cmp_antisym (canon a) (canon b)).
  destruct (orderable (canon a) (canon b)).
  - destruct (cmp (canon a) (canon b)) as [[ | | ] | ]; simpl; split;
      try discriminate;
      try (intros _; split; [reflexivity | eexists; split;
                                           [reflexivity | discriminate]]);
      intros [_ [c [H N]]]; congruence.
  - split; [discriminate | intros [H _]; discriminate].
Qed.

(** [date_le] in terms of the normal forms. *)
Lemma date_le_cmp (a b : json) :
  date_le a b <->
  orderable (canon a) (canon b) = true /\
  exists c, cmp (canon a) (canon b) = Some c /\ c <> Gt.
Proof.
  unfold date_le. rewrite py_lt_false, orderable_sym. reflexivity.
Qed.

Lemma py_lt_date_le (a b : json) : py_lt a b = Ok true -> date_le a b.
Proof.
  rewrite py_lt_true, date_le_cmp. intros [H1 H2].
  split; [exact H1 | exists Lt; split; [exact H2 | discriminate]].
Qed.

Lemma date_le_trans (a b c : json) :
  date_le a b -> date_le b c -> date_le a c.
Proof.
  rewrite !date_le_cmp. intros [O1 [c1 [H1 N1]]] [O2 [c2 [H2 N2]]].
  split; [eapply orderable_trans; eauto | ].
  exists (seq_comparison c1 c2). split.
  - eapply cmp_trans; eauto.
  - destruct c1, c2; simpl; congruence.
Qed.

Lemma py_lt_date_le_refl (a b : json) : py_lt a b = Ok true -> date_le b b.
Proof.
  rewrite py_lt_true, date_le_cmp. intros [O _]. split.
  - destruct (canon a), (canon b); simpl in *; congruence.
  - exists Eq. split; [apply cmp_refl | discriminate].
Qed.

(** A date strictly below [b] is not equal to any date from [b] up. *)
Lemma py_lt_not_eq (a b c : json) :
  py_lt a b = Ok true -> date_le b c -> py_eq c a = false.
Proof.
  rewrite py_lt_true, date_le_cmp. intros [O1 H1] [O2 [c2 [H2 N2]]].
  destruct (py_eq c a) eqn:E; [ | reflexivity].
  apply py_eq_canon in E.
  assert (H : cmp (canon a) (canon c) = Some (seq_comparison Lt c2))
    by (eapply cmp_trans; eauto; discriminate).
  rewrite E, cmp_refl in H. simpl in H. discriminate.
Qed.

(** ** The sort *)

Lemma insert_by_date_perm (x : completion) (l l' : list completion) :
  insert_by_date x l = Ok l' -> Permutation (x :: l) l'.
Proof.
  revert l'. induction l as [ | y l IH]; simpl; intros l' H.
  - injection H as <-. apply Permutation_refl.
  - apply bind_ok in H. destruct H as [lt [_ H]]. destruct lt.
    + injection H as <-. apply Permutation_refl.
    + apply bind_ok in H. destruct H as [r [Hr H]]. injection H as <-.
      apply perm_trans with (y :: x :: l); [apply perm_swap | ].
      apply perm_skip. apply IH. exact Hr.
Qed.

Lemma insert_by_date_sorted (x : completion) (l l' : list completion) :
  non_decreasing_by_date l ->
  insert_by_date x l = Ok l' ->
  non_decreasing_by_date l'.
Proof.
  unfold non_decreasing_by_date.
  revert l'. induction l as [ | y l IH]; simpl; intros l' S H.
  - injection H as <-. repeat constructor.
  - apply bind_ok in H. destruct H as [lt [Hlt H]].
    apply StronglySorted_inv in S. destruct S as [S F].
    destruct lt.
    + injection H as <-. constructor; [constructor; assumption | ].
      constructor; [apply py_lt_date_le; exact Hlt | ].
      eapply Forall_impl; [ | exact F]. intros z Hz. simpl in Hz.
      eapply date_le_trans; [apply py_lt_date_le; exact Hlt | exact Hz].
    + apply bind_ok in H. destruct H as [r [Hr H]]. injection H as <-.
      constructor; [apply IH; assumption | ].
      eapply Permutation_Forall; [apply insert_by_date_perm; exact Hr | ].
      constructor; [exact Hlt | exact F].
Qed.

Lemma dated_app (k : json) (l m : list completion) :
  dated k (l ++ m) = dated k l ++ dated k m.
Proof. apply filter_app. Qed.

Lemma insert_by_date_stable (x : completion) (l l' : list completion) :
  non_decreasing_by_date l ->
  insert_by_date x l = Ok l' ->
  forall k, dated k l' = dated k (l ++ [x]).
Proof.
  unfold non_decreasing_by_date.
  revert l'. induction l as [ | y l IH]; simpl; intros l' S H k.
  - injection H as <-. reflexivity.
  - apply bind_ok in H. destruct H as [lt [Hlt H]].
    apply StronglySorted_inv in S. destruct S as [S F].
    destruct lt.
    + injection H as <-.
      change (dated k (x :: y :: l) = dated k ((y :: l) ++ [x])).
      rewrite dated_app.
      change (dated k (x :: y :: l))
        with (if py_eq (date x) k then x :: dated k (y :: l)
              else dated k (y :: l)).
      change (dated k [x]) with (if py_eq (date x) k then [x] else []).
      destruct (py_eq (date x) k) eqn:Ex; [ | rewrite app_nil_r; reflexivity].
      assert (N : dated k (y :: l) = []).
      { assert (G : Forall (fun z => date_le (date y) (date z)) (y :: l))
          by (constructor; [eapply py_lt_date_le_refl; exact Hlt | exact F]).
        unfold dated. clear - G Hlt Ex.
        induction G as [ | z m Hz _ IHm]; simpl; [reflexivity | ].
        destruct (py_eq (date z) k) eqn:Ez; [ | exact IHm].
        assert (E : py_eq (date z) (date x) = true).
        { apply py_eq_canon. apply py_eq_canon in Ez, Ex. congruence. }
        rewrite (py_lt_not_eq _ _ _ Hlt Hz) in E. discriminate. }
      rewrite N. reflexivity.
    + apply bind_ok in H. destruct H as [r [Hr H]]. injection H as <-.
      unfold dated in *. simpl. rewrite (IH r S Hr k). reflexivity.
Qed.

Lemma sort_by_date_app (l : list completion) (x : completion) :
  sort_by_date (l ++ [x])
  = (sorted <- sort_by_date l ;; insert_by_date x sorted).
Proof. unfold sort_by_date. rewrite fold_left_app. reflexivity. Qed.

(** The sort, when it returns: sorted, a permutation, stable. *)
Lemma sort_by_date_spec (l out : list completion) :
  sort_by_date l = Ok out ->
  non_decreasing_by_date out /\ Permutation l out
  /\ forall k, dated k out = dated k l.
Proof.
  revert out. induction l as [ | x l IH] using rev_ind; intros out H.
  - injection H as <-. repeat split; [constructor | constructor].
  - rewrite sort_by_date_app in H. apply bind_ok in H.
    destruct H as [s [Hs H]]. destruct (IH s Hs) as [S [P D]].
    repeat split.
    + eapply insert_by_date_sorted; eauto.
    + apply perm_trans with (x :: s).
      * apply perm_trans with (x :: l);
          [apply Permutation_sym, Permutation_cons_append | ].
        apply perm_skip. exact P.
      * apply insert_by_date_perm. exact H.
    + intros k. rewrite (insert_by_date_stable x s out S H k).
      rewrite !dated_app, D. reflexivity.
Qed.



(** ** Dicts *)

Lemma pd_get_set {V : Type} (T k : json) (v : V) (d : pydict V) :
  pd_get T (pd_set k v d) = if py_eq T k then Some v else pd_get T d.
Proof.
  induction d as [ | [k' v'] d IH]; simpl.
  - reflexivity.
  - destruct (py_eq k k') eqn:E; simpl.
    + rewrite (py_eq_right k k' T E).
      destruct (py_eq T k'); reflexivity.
    + rewrite IH. destruct (py_eq T k') eqn:F; [ | reflexivity].
      destruct (py_eq T k) eqn:G; [ | reflexivity].
      rewrite <- (py_eq_left T k k' G), F in E. discriminate.
Qed.

Lemma pd_get_eq {V : Type} (a b : json) (d : pydict V) :
  py_eq a b = true -> pd_get a d = pd_get b d.
Proof.
  intros H. induction d as [ | [k v] d IH]; simpl; [reflexivity | ].
  rewrite (py_eq_left a b k H), IH. reflexivity.
Qed.

Lemma pd_get_in {V : Type} (T : json) (d : pydict V) (v : V) :
  pd_get T d = Some v -> exists k, In (k, v) d /\ py_eq T k = true.
Proof.
  induction d as [ | [k w] d IH]; simpl; [discriminate | ].
  destruct (py_eq T k) eqn:E.
  - intros H. injection H as <-. eauto.
  - intros H. destruct (IH H) as [k' [Hin Hk]]. eauto.
Qed.

Lemma pd_get_none {V : Type} (T : json) (d : pydict V) :
  pd_get T d = None <-> forall k v, In (k, v) d -> py_eq T k = false.
Proof.
  induction d as [ | [k w] d IH]; simpl.
  - split; [intros _ k v [] | reflexivity].
  - destruct (py_eq T k) eqn:E.
    + split; [discriminate | ]. intros H.
      rewrite (H k w (or_introl eq_refl)) in E. discriminate.
    + rewrite IH. split.
      * intros H k' v [Heq | Hin]; [injection Heq as <- <-; exact E | eauto].
      * intros H k' v Hin. eauto.
Qed.

Lemma pd_set_keys {V : Type} (k : json) (v : V) (d : pydict V) :
  map fst (pd_set k v d)
  = if pd_mem k d then map fst d else map fst d ++ [k].
Proof.
  unfold pd_mem. induction d as [ | [k' v'] d IH]; simpl; [reflexivity | ].
  destruct (py_eq k k'); simpl; [reflexivity | ].
  rewrite IH. destruct (pd_get k d); reflexivity.
Qed.

Lemma unique_keys_set {V : Type} (k : json) (v : V) (d : pydict V) :
  unique_keys d -> unique_keys (pd_set k v d).
Proof.
  unfold unique_keys.
  assert (M : forall e : pydict V,
             map (fun kv => canon (fst kv)) e = map canon (map fst e))
    by (intros e; rewrite map_map; reflexivity).
  rewrite !M, pd_set_keys. unfold pd_mem.
  destruct (pd_get k d) eqn:E; [tauto | ].
  intros N. rewrite map_app. simpl.
  apply NoDup_app; [exact N | repeat constructor; intros [] | ].
  intros c Hc [Hk | []]. subst c.
  apply in_map_iff in Hc. destruct Hc as [k' [Hk' Hin]].
  apply in_map_iff in Hin. destruct Hin as [[k'' w] [Hf Hin]].
  simpl in Hf. subst k''.
  rewrite pd_get_none in E. specialize (E k' w Hin).
  symmetry in Hk'. apply py_eq_canon in Hk'. congruence.
Qed.

(** ** The indexers keep the last record of each task *)

Lemma find_snoc {A : Type} (p : A -> bool) (l : list A) (x : A) :
  find p (l ++ [x])
  = match find p l with
    | Some y => Some y
    | None => if p x then Some x else None
    end.
Proof.
  induction l as [ | y l IH]; simpl; [reflexivity | ].
  destruct (p y); [reflexivity | exact IH].
Qed.

Lemma record_for_dict (sel : record -> bool) (T rec : json) :
  record_for sel T rec = true -> exists r, rec = JDict r.
Proof. destruct rec; simpl; try discriminate. eauto. Qed.

Lemma last_record_cons (sel : record -> bool) (T rec : json)
    (rest : list json) :
  last_record sel T (rec :: rest)
  = match last_record sel T rest with
    | Some r => Some r
    | None =>
        match rec with
        | JDict r => if record_for sel T rec then Some r else None
        | _ => None
        end
    end.
Proof.
  unfold last_record. simpl rev. rewrite find_snoc.
  destruct (find (record_for sel T) (rev rest)) as [y | ] eqn:E.
  - apply find_some in E. destruct E as [_ E].
    apply record_for_dict in E. destruct E as [r ->]. reflexivity.
  - destruct (record_for sel T rec) eqn:F.
    + apply record_for_dict in F. destruct F as [r ->]. reflexivity.
    + destruct rec; reflexivity.
Qed.

Lemma has_record_last (sel : record -> bool) (T : json) (recs : list json) :
  has_record sel T recs
  = match last_record sel T recs with Some _ => true | None => false end.
Proof.
  induction recs as [ | rec rest IH]; [reflexivity | ].
  rewrite last_record_cons. unfold has_record in *. simpl. rewrite IH.
  destruct (last_record sel T rest); [apply orb_true_r | ].
  rewrite orb_false_r.
  destruct (record_for sel T rec) eqn:F.
  - apply record_for_dict in F. destruct F as [r ->]. reflexivity.
  - destruct rec; reflexivity.
Qed.

Lemma index_by_spec (sel : record -> bool) (recs : list json) :
  forall acc idx,
    index_by sel recs acc = Ok idx ->
    (forall T, pd_get T idx
               = match last_record sel T recs with
                 | Some r => Some r
                 | None => pd_get T acc
                 end)
    /\ (unique_keys acc -> unique_keys idx).
Proof.
  induction recs as [ | rec rest IH]; simpl; intros acc idx H.
  - injection H as <-. split; [reflexivity | tauto].
  - apply bind_ok in H. destruct H as [r [Hr H]].
    destruct rec; try discriminate. injection Hr as ->.
    destruct (truthy (get r "task_id") && sel r) eqn:C.
    + apply bind_ok in H. destruct H as [acc' [Ha H]].
      unfold pd_store in Ha.
      destruct (hashable (get r "task_id")); [ | discriminate].
      injection Ha as <-. destruct (IH _ _ H) as [G U]. split.
      * intros T. rewrite last_record_cons, G, pd_get_set.
        destruct (last_record sel T rest); [reflexivity | ].
        unfold record_for.
        apply andb_true_iff in C. destruct C as [C1 C2].
        rewrite C1, C2, andb_true_r. simpl.
        destruct (py_eq T (get r "task_id")); reflexivity.
      * intros N. apply U. apply unique_keys_set. exact N.
    + destruct (IH _ _ H) as [G U]. split; [ | exact U].
      intros T. rewrite last_record_cons, G.
      destruct (last_record sel T rest); [reflexivity | ].
      unfold record_for.
      destruct (truthy (get r "task_id")); simpl in *;
        [rewrite C, andb_false_r | ]; reflexivity.
Qed.

Lemma index_tasks_by (recs : list json) (acc : pydict record) :
  index_tasks recs acc = index_by any_record recs acc.
Proof.
  revert acc. induction recs as [ | rec rest IH]; intros acc; simpl;
    [reflexivity | ].
  destruct (as_record rec) as [r | e]; simpl; [ | reflexivity].
  unfold any_record. rewrite andb_true_r.
  destruct (truthy (get r "task_id")); [ | apply IH].
  destruct (pd_store acc (get r "task_id") r); simpl; [apply IH | reflexivity].
Qed.

Lemma index_balance_by (recs : list json) (acc : pydict record) :
  index_balance recs acc = index_by is_balance recs acc.
Proof.
  revert acc. induction recs as [ | rec rest IH]; intros acc; simpl;
    [reflexivity | ].
  destruct (as_record rec) as [r | e]; simpl; [ | reflexivity].
  destruct (truthy (get r "task_id") && is_balance r); [ | apply IH].
  destruct (pd_store acc (get r "task_id") r); simpl; [apply IH | reflexivity].
Qed.

Lemma index_token_costs_by (recs : list json) :
  forall c i c' i',
    index_token_costs recs c i = Ok (c', i') ->
    index_by is_cost recs c = Ok c' /\ index_by is_income recs i = Ok i'.
Proof.
  induction recs as [ | rec rest IH]; simpl; intros c i c' i' H.
  - injection H as <- <-. split; reflexivity.
  - apply bind_ok in H. destruct H as [r [Hr H]]. rewrite Hr. simpl.
    unfold is_cost.
    destruct (truthy (get r "task_id")); simpl in *; [ | apply IH; exact H].
    destruct (is_income r); simpl in *.
    + apply bind_ok in H. destruct H as [i2 [Hi H]]. rewrite Hi. simpl.
      apply IH. exact H.
    + destruct (has_key r "timestamp_start" && has_key r "timestamp_end");
        simpl in *; [ | apply IH; exact H].
      apply bind_ok in H. destruct H as [c2 [Hc H]]. rewrite Hc. simpl.
      apply IH. exact H.
Qed.

Lemma unique_keys_nil {V : Type} : unique_keys (@nil (json * V)).
Proof. constructor. Qed.

(** The three loaders in terms of the files. *)
Lemma load_tasks_spec (dir : agent_dir) (tasks : pydict record) :
  load_tasks dir = Ok tasks ->
  (forall T, pd_get T tasks = last_record any_record T (task_records dir))
  /\ unique_keys tasks.
Proof.
  unfold load_tasks, task_records, records_of.
  destruct (work_tasks dir) as [f | ].
  - rewrite index_tasks_by. intros H.
    destruct (index_by_spec _ _ _ _ H) as [G U]. split.
    + intros T. rewrite G. destruct (last_record _ T _); reflexivity.
    + apply U. apply unique_keys_nil.
  - intros H. injection H as <-. split; [reflexivity | apply unique_keys_nil].
Qed.

Lemma load_token_costs_spec (dir : agent_dir) (c i : pydict record) :
  load_token_costs dir = Ok (c, i) ->
  (forall T, pd_get T c = last_record is_cost T (token_records dir))
  /\ (forall T, pd_get T i = last_record is_income T (token_records dir))
  /\ unique_keys c /\ unique_keys i.
Proof.
  unfold load_token_costs, token_records, records_of.
  destruct (economic_token_costs dir) as [f | ].
  - intros H. apply index_token_costs_by in H. destruct H as [Hc Hi].
    destruct (index_by_spec _ _ _ _ Hc) as [Gc Uc].
    destruct (index_by_spec _ _ _ _ Hi) as [Gi Ui].
    repeat split.
    + intros T. rewrite Gc. destruct (last_record _ T _); reflexivity.
    + intros T. rewrite Gi. destruct (last_record _ T _); reflexivity.
    + apply Uc. apply unique_keys_nil.
    + apply Ui. apply unique_keys_nil.
  - intros H. injection H as <- <-.
    repeat split; try reflexivity; apply unique_keys_nil.
Qed.

Lemma load_balance_spec (dir : agent_dir) (b : pydict record) :
  load_balance dir = Ok b ->
  (forall T, pd_get T b = last_record is_balance T (balance_records_of dir))
  /\ unique_keys b.
Proof.
  unfold load_balance, balance_records_of, records_of.
  destruct (economic_balance dir) as [f | ].
  - rewrite index_balance_by. intros H.
    destruct (index_by_spec _ _ _ _ H) as [G U]. split.
    + intros T. rewrite G. destruct (last_record _ T _); reflexivity.
    + apply U. apply unique_keys_nil.
  - intros H. injection H as <-. split; [reflexivity | apply unique_keys_nil].
Qed.

(** ** The derivation *)

Lemma Forall2_In_l {A B : Type} (R : A -> B -> Prop) (l : list A)
    (l' : list B) (x : A) :
  Forall2 R l l' -> In x l -> exists y, In y l' /\ R x y.
Proof.
  induction 1 as [ | a b l l' Hab _ IH]; simpl; [tauto | ].
  intros [<- | Hin]; [eauto | ].
  destruct (IH Hin) as [y [Hy Hr]]. eauto.
Qed.

Lemma Forall2_In_r {A B : Type} (R : A -> B -> Prop) (l : list A)
    (l' : list B) (y : B) :
  Forall2 R l l' -> In y l' -> exists x, In x l /\ R x y.
Proof.
  induction 1 as [ | a b l l' Hab _ IH]; simpl; [tauto | ].
  intros [<- | Hin]; [eauto | ].
  destruct (IH Hin) as [x [Hx Hr]]. eauto.
Qed.

Section Proofs.

Variable fromisoformat : string -> option datetime.
Variable float_of_str : string -> option Q.

(** The fields of a record that [derive_record] returns. *)
Lemma derive_record_ok (now : string) (k : json) (task_rec : record)
    (cost_rec income_rec balance_rec : option record) (r : completion) :
  derive_record fromisoformat float_of_str now k task_rec
    cost_rec income_rec balance_rec = Ok r ->
  exists s m,
    income_float float_of_str income_rec "evaluation_score" = Ok s
    /\ income_float float_of_str income_rec "actual_payment" = Ok m
    /\ compute_wall_clock fromisoformat float_of_str k cost_rec balance_rec
       = Ok (wall_clock_seconds r)
    /\ task_id r = k
    /\ date r = py_or (py_or (py_or (get task_rec "date")
                                    (get_if cost_rec "date"))
                             (get_if income_rec "date"))
                      (JStr "")
    /\ evaluation_score r = py_round s 4
    /\ money_earned r = py_round m 4
    /\ work_submitted r
       = match income_rec with Some _ => true | None => false end
    /\ attempt r = 1%Z /\ _derived r = true.
Proof.
  unfold derive_record. intros H.
  apply bind_ok in H. destruct H as [s [Hs H]].
  apply bind_ok in H. destruct H as [m [Hm H]].
  apply bind_ok in H. destruct H as [w [Hw H]].
  injection H as <-. exists s, m. simpl. repeat split; assumption.
Qed.

(** The loop derives one record for each task of the index that has an
    income record, in the order of the index. *)
Lemma derive_loop_spec (clock : nat -> string)
    (c inc b : pydict record) (tasks : pydict record) :
  forall i derived,
    derive_loop fromisoformat float_of_str clock i tasks c inc b = Ok derived ->
    Forall2
      (fun (kv : json * record) (r : completion) =>
         exists j, derive_record fromisoformat float_of_str (clock j)
                     (fst kv) (snd kv) (pd_get (fst kv) c)
                     (pd_get (fst kv) inc) (pd_get (fst kv) b) = Ok r)
      (filter (fun kv => pd_mem (fst kv) inc) tasks) derived.
Proof.
  induction tasks as [ | [k task_rec] tasks IH]; simpl; intros i derived H.
  - injection H as <-. constructor.
  - unfold pd_mem. simpl.
    destruct (pd_get k inc) as [income_rec | ] eqn:E.
    + apply bind_ok in H. destruct H as [r [Hr H]].
      apply bind_ok in H. destruct H as [rest [Hrest H]].
      injection H as <-. constructor; [ | eapply IH; eauto].
      exists i. simpl. rewrite E. exact Hr.
    + eapply IH; eauto.
Qed.

(** The steps of a run that returns. *)
Lemma run_inv (clock : nat -> string) (dir dir' : agent_dir)
    (dry_run : bool) (out : list completion) :
  derive_task_completions fromisoformat float_of_str clock dir dry_run
  = Ok (out, dir') ->
  exists tasks,
    load_tasks dir = Ok tasks
    /\ ((tasks = [] /\ out = [] /\ dir' = dir)
        \/ (tasks <> []
            /\ exists c i b derived,
                load_token_costs dir = Ok (c, i)
                /\ load_balance dir = Ok b
                /\ derive_loop fromisoformat float_of_str clock 0 tasks c i b
                   = Ok derived
                /\ sort_by_date derived = Ok out
                /\ dir' = if dry_run then dir
                          else write_completions dir out)).
Proof.
  unfold derive_task_completions. intros H.
  apply bind_ok in H. destruct H as [tasks [Ht H]]. exists tasks.
  split; [exact Ht | ]. destruct tasks as [ | kv tasks].
  - left. injection H as <- <-. auto.
  - right. split; [discriminate | ].
    apply bind_ok in H. destruct H as [[c i] [Hc H]].
    apply bind_ok in H. destruct H as [b [Hb H]].
    apply bind_ok in H. destruct H as [derived [Hd H]].
    apply bind_ok in H. destruct H as [sorted [Hs H]].
    exists c, i, b, derived. destruct dry_run; injection H as <- <-; auto.
Qed.

(** The derived records of a run that returns, against the indexes. *)
Lemma run_records (clock : nat -> string) (dir dir' : agent_dir)
    (dry_run : bool) (out : list completion) :
  derive_task_completions fromisoformat float_of_str clock dir dry_run
  = Ok (out, dir') ->
  exists tasks derived,
    load_tasks dir = Ok tasks
    /\ Forall2 (fun (kv : json * record) (r : completion) =>
                  task_id r = fst kv) 
         (filter (fun kv => submitted dir (fst kv)) tasks) derived
    /\ non_decreasing_by_date out
    /\ Permutation derived out
    /\ forall k, dated k out = dated k derived.
Proof.
  intros H. apply run_inv in H. destruct H as [tasks [Ht H]].
  exists tasks. destruct H as [[-> [-> _]] | [_ H]].
  - exists []. split; [exact Ht | ]. repeat split; constructor.
  - destruct H as [c [i [b [derived [Hc [Hb [Hd [Hs _]]]]]]]].
    exists derived. split; [exact Ht | ].
    destruct (sort_by_date_spec _ _ Hs) as [S [P D]].
    repeat split; try assumption.
    apply derive_loop_spec in Hd.
    destruct (load_token_costs_spec _ _ _ Hc) as [_ [Gi _]].
    assert (F : filter (fun kv : json * record => submitted dir (fst kv)) tasks
                = filter (fun kv => pd_mem (fst kv) i) tasks).
    { apply filter_ext. intros kv. unfold submitted, pd_mem.
      rewrite has_record_last, Gi. reflexivity. }
    rewrite F. eapply Forall2_impl; [ | exact Hd].
    intros kv r [j Hr]. apply derive_record_ok in Hr.
    destruct Hr as [s [m Hr]]. tauto.
Qed.

Lemma has_record_eq (sel : record -> bool) (a b : json) (recs : list json) :
  py_eq a b = true -> has_record sel a recs = has_record sel b recs.
Proof.
  intros H. unfold has_record. induction recs as [ | rec rest IH]; simpl;
    [reflexivity | ].
  rewrite IH. f_equal. destruct rec; try reflexivity. simpl.
  rewrite (py_eq_left a b _ H). reflexivity.
Qed.

Lemma pd_get_self {V : Type} (k : json) (v : V) (d : pydict V) :
  In (k, v) d -> pd_get k d <> None.
Proof.
  intros Hin E. rewrite pd_get_none in E.
  specialize (E k v Hin). rewrite py_eq_refl in E. discriminate.
Qed.

(** C1 (amended): when the run returns, a derived record for T is in
    the output if and only if work/tasks.jsonl holds a task assignment
    for T and economic/token_costs.jsonl holds an income record (type
    "work_income") for T. *)
Theorem derived_iff_assigned_and_submitted (clock : nat -> string)
    (dir dir' : agent_dir) (dry_run : bool) (out : list completion)
    (T : json) :
  derive_task_completions fromisoformat float_of_str clock dir dry_run
  = Ok (out, dir') ->
  (derived_for out T <-> assigned dir T = true /\ submitted dir T = true).
Proof.
  intros H. apply run_records in H.
  destruct H as [tasks [derived [Ht [F [_ [P _]]]]]].
  destruct (load_tasks_spec _ _ Ht) as [G _].
  unfold derived_for, assigned. split.
  - intros [r [Hin Hr]].
    apply (Permutation_in _ (Permutation_sym P)) in Hin.
    destruct (Forall2_In_r _ _ _ _ F Hin) as [[k task_rec] [Hk Hid]].
    simpl in Hid. rewrite Hid in Hr.
    apply filter_In in Hk. destruct Hk as [Hk Hs]. simpl in Hs.
    split.
    + rewrite has_record_last, <- G, (pd_get_eq T k tasks Hr).
      destruct (pd_get k tasks) eqn:E; [reflexivity | ].
      exfalso. exact (pd_get_self k task_rec tasks Hk E).
    + unfold submitted in *. rewrite (has_record_eq _ T k _ Hr). exact Hs.
  - intros [Ha Hs]. rewrite has_record_last, <- G in Ha.
    destruct (pd_get T tasks) as [task_rec | ] eqn:E; [ | discriminate].
    destruct (pd_get_in _ _ _ E) as [k [Hk Hr]].
    assert (Hf : In (k, task_rec)
                   (filter (fun kv : json * record => submitted dir (fst kv))
                      tasks)).
    { apply filter_In. split; [exact Hk | ]. simpl.
      unfold submitted in *. rewrite <- (has_record_eq _ T k _ Hr). exact Hs. }
    destruct (Forall2_In_l _ _ _ _ F Hf) as [r [Hin Hid]]. simpl in Hid.
    exists r. split; [exact (Permutation_in _ P Hin) | ].
    rewrite Hid. exact Hr.
Qed.

(** C10: when the run returns, every derived record carries a task
    identifier of the task index loaded from work/tasks.jsonl; a task
    identifier with an income record in economic/token_costs.jsonl and
    no entry in the task index gets no derived record. *)
Theorem output_within_task_index (clock : nat -> string)
    (dir dir' : agent_dir) (dry_run : bool) (out : list completion)
    (tasks : pydict record) :
  derive_task_completions fromisoformat float_of_str clock dir dry_run
  = Ok (out, dir') ->
  load_tasks dir = Ok tasks ->
  (forall r, In r out -> exists task_rec, In (task_id r, task_rec) tasks)
  /\ (forall T, submitted dir T = true -> pd_get T tasks = None ->
                ~ derived_for out T).
Proof.
  intros H Ht.
  assert (A : forall r, In r out ->
                exists task_rec, In (task_id r, task_rec) tasks).
  { apply run_records in H.
    destruct H as [tasks' [derived [Ht' [F [_ [P _]]]]]].
    assert (tasks' = tasks) by congruence. subst tasks'.
    intros r Hin. apply (Permutation_in _ (Permutation_sym P)) in Hin.
    destruct (Forall2_In_r _ _ _ _ F Hin) as [[k task_rec] [Hk Hid]].
    simpl in Hid. rewrite Hid. exists task_rec.
    apply filter_In in Hk. tauto. }
  split; [exact A | ].
  intros T _ Hnone [r [Hin Hr]].
  destruct (A r Hin) as [task_rec Hk].
  rewrite (pd_get_eq T (task_id r) tasks Hr) in Hnone.
  exact (pd_get_self _ _ _ Hk Hnone).
Qed.



(** Where each record of the output comes from. *)
Lemma run_record_origin (clock : nat -> string) (dir dir' : agent_dir)
    (dry_run : bool) (out : list completion) (r : completion) :
  derive_task_completions fromisoformat float_of_str clock dir dry_run
  = Ok (out, dir') ->
  In r out ->
  exists tasks c i b k task_rec income_rec j,
    load_tasks dir = Ok tasks
    /\ load_token_costs dir = Ok (c, i)
    /\ load_balance dir = Ok b
    /\ In (k, task_rec) tasks
    /\ pd_get k i = Some income_rec
    /\ derive_record fromisoformat float_of_str (clock j) k task_rec
         (pd_get k c) (Some income_rec) (pd_get k b) = Ok r.
Proof.
  intros H Hin. apply run_inv in H. destruct H as [tasks [Ht H]].
  destruct H as [[_ [-> _]] | [_ H]]; [destruct Hin | ].
  destruct H as [c [i [b [derived [Hc [Hb [Hd [Hs _]]]]]]]].
  destruct (sort_by_date_spec _ _ Hs) as [_ [P _]].
  apply (Permutation_in _ (Permutation_sym P)) in Hin.
  apply derive_loop_spec in Hd.
  destruct (Forall2_In_r _ _ _ _ Hd Hin) as [[k task_rec] [Hk [j Hr]]].
  simpl in Hr. apply filter_In in Hk. destruct Hk as [Hk Hm].
  unfold pd_mem in Hm. simpl in Hm.
  destruct (pd_get k i) as [income_rec | ] eqn:E; [ | discriminate].
  exists tasks, c, i, b, k, task_rec, income_rec, j. auto 10.
Qed.

Lemma income_float_some (income_rec : record) (k : string) :
  income_float float_of_str (Some income_rec) k
  = py_float float_of_str (get_default income_rec k (JFloat 0)).
Proof. destruct income_rec; reflexivity. Qed.

(** C4: each of the four indexes holds at most one record per task
    identifier, the one that comes last in its file among the records
    the index takes; and a derived record for T carries the evaluation
    score of the income record for T that comes last in
    economic/token_costs.jsonl. *)
Theorem last_record_wins (clock : nat -> string) (dir dir' : agent_dir)
    (dry_run : bool) (out : list completion)
    (tasks c i b : pydict record) (T : json) :
  load_tasks dir = Ok tasks ->
  load_token_costs dir = Ok (c, i) ->
  load_balance dir = Ok b ->
  derive_task_completions fromisoformat float_of_str clock dir dry_run
  = Ok (out, dir') ->
  (unique_keys tasks /\ unique_keys c /\ unique_keys i /\ unique_keys b)
  /\ pd_get T tasks = last_record any_record T (task_records dir)
  /\ pd_get T c = last_record is_cost T (token_records dir)
  /\ pd_get T i = last_record is_income T (token_records dir)
  /\ pd_get T b = last_record is_balance T (balance_records_of dir)
  /\ forall r, In r out -> py_eq T (task_id r) = true ->
       exists income_rec score,
         last_record is_income T (token_records dir) = Some income_rec
         /\ py_float float_of_str
              (get_default income_rec "evaluation_score" (JFloat 0))
            = Ok score
         /\ evaluation_score r = py_round score 4.
Proof.
  intros Ht Hc Hb H.
  destruct (load_tasks_spec _ _ Ht) as [Gt Ut].
  destruct (load_token_costs_spec _ _ _ Hc) as [Gc [Gi [Uc Ui]]].
  destruct (load_balance_spec _ _ Hb) as [Gb Ub].
  repeat split; auto.
  intros r Hin Hr.
  destruct (run_record_origin _ _ _ _ _ _ H Hin)
    as [tasks' [c' [i' [b' [k [task_rec [income_rec [j O]]]]]]]].
  destruct O as [_ [Hc' [_ [_ [Hi Hd]]]]].
  assert (i' = i) by congruence. subst i'.
  apply derive_record_ok in Hd.
  destruct Hd as [s [m [Hs [_ [_ [Hid [_ [He _]]]]]]]].
  rewrite Hid in Hr. exists income_rec, s. repeat split.
  - rewrite <- Gi, (pd_get_eq T k i Hr). exact Hi.
  - rewrite <- income_float_some. exact Hs.
  - exact He.
Qed.

(** ** The clock *)

Lemma truthy_not_null (v x : json) :
  truthy v = true -> match v with JNull => x | _ => v end = v.
Proof. destruct v; simpl; intros H; try reflexivity. discriminate. Qed.

Lemma derive_record_clock (now1 now2 : string) (k : json) (task_rec : record)
    (cost_rec income_rec balance_rec : option record) :
  timestamp_logged cost_rec income_rec = true ->
  derive_record fromisoformat float_of_str now1 k task_rec
    cost_rec income_rec balance_rec
  = derive_record fromisoformat float_of_str now2 k task_rec
      cost_rec income_rec balance_rec.
Proof.
  unfold derive_record, timestamp_logged. intros H.
  destruct (income_float float_of_str income_rec "evaluation_score");
    simpl; [ | reflexivity].
  destruct (income_float float_of_str income_rec "actual_payment");
    simpl; [ | reflexivity].
  destruct (compute_wall_clock fromisoformat float_of_str k cost_rec
              balance_rec); simpl; [ | reflexivity].
  do 2 f_equal.
  destruct (rec_truthy cost_rec && truthy (get_if cost_rec "timestamp_end"))
    eqn:E1.
  - apply andb_true_iff in E1. destruct E1 as [_ E1].
    destruct (get_if cost_rec "timestamp_end"); simpl in E1;
      try reflexivity; discriminate.
  - simpl in H. rewrite H. apply andb_true_iff in H. destruct H as [_ H].
    destruct (get_if income_rec "timestamp"); simpl in H;
      try reflexivity; discriminate.
Qed.

Lemma derive_loop_clock (clock1 clock2 : nat -> string)
    (c inc b : pydict record) (tasks : pydict record) :
  forallb (fun kv : json * record =>
             match pd_get (fst kv) inc with
             | Some income_rec =>
                 timestamp_logged (pd_get (fst kv) c) (Some income_rec)
             | None => true
             end) tasks = true ->
  forall i1 i2,
    derive_loop fromisoformat float_of_str clock1 i1 tasks c inc b
    = derive_loop fromisoformat float_of_str clock2 i2 tasks c inc b.
Proof.
  induction tasks as [ | [k task_rec] tasks IH]; simpl; intros H i1 i2;
    [reflexivity | ].
  apply andb_true_iff in H. destruct H as [H1 H2].
  destruct (pd_get k inc) as [income_rec | ].
  - rewrite (derive_record_clock (clock1 i1) (clock2 i2) _ _ _ _ _ H1).
    rewrite (IH H2 (S i1) (S i2)). reflexivity.
  - apply IH. exact H2.
Qed.

(** C9: if every task of the task index that has an income record takes
    its timestamp from the cost record's end timestamp or from the
    income record's timestamp, the run does not depend on the clock:
    two runs over the same files return the same records and leave the
    same output file, whatever the time of each. *)
Theorem derivation_deterministic (clock1 clock2 : nat -> string)
    (dir : agent_dir) (dry_run : bool) :
  all_timestamps_logged dir = true ->
  derive_task_completions fromisoformat float_of_str clock1 dir dry_run
  = derive_task_completions fromisoformat float_of_str clock2 dir dry_run.
Proof.
  unfold all_timestamps_logged, derive_task_completions. intros H.
  destruct (load_tasks dir) as [tasks | e]; cbn [bind]; [ | reflexivity].
  destruct tasks as [ | kv tasks]; [reflexivity | ].
  destruct (load_token_costs dir) as [[c i] | e]; cbn [bind];
    [ | reflexivity].
  destruct (load_balance dir) as [b | e]; cbn [bind]; [ | reflexivity].
  rewrite (derive_loop_clock clock1 clock2 c i b (kv :: tasks) H 0%nat 0%nat).
  reflexivity.
Qed.

(** ** Wall-clock seconds *)

Lemma py_round_nonneg (x : Q) (ndigits : nat) :
  (0 <= x)%Q -> (0 <= py_round x ndigits)%Q.
Proof.
  intros Hx. unfold py_round. rewrite Qred_correct.
  set (s := (10 ^ Z.of_nat ndigits)%Z).
  set (n := (Qnum x * s)%Z).
  set (d := Zpos (Qden x)).
  assert (Hs : (0 < s)%Z) by (apply Z.pow_pos_nonneg; lia).
  assert (Hn : (0 <= n)%Z).
  { unfold n. unfold Qle in Hx. simpl in Hx. nia. }
  assert (Hm : (0 <= n / d)%Z) by (apply Z.div_pos; unfold d; lia).
  match goal with
  | |- (0 <= Qmake ?m _)%Q => assert (Hm' : (0 <= m)%Z); [ | set (m' := m) in * ]
  end.
  { destruct (2 * (n mod d) ?= d)%Z; [destruct (Z.even (n / d)) | | ]; lia. }
  unfold Qle. simpl. lia.
Qed.

Lemma get_if_field (r : option record) (k : string) :
  get_if r k = field_or_null r k.
Proof. destruct r as [[ | kv d] | ]; reflexivity. Qed.

Lemma field_or_null_truthy (r : option record) (k : string) :
  truthy (field_or_null r k) = true ->
  field_of r k = Some (field_or_null r k).
Proof.
  unfold field_or_null. destruct (field_of r k); [reflexivity | discriminate].
Qed.

Section EmptyTimestamp.

(** [datetime.fromisoformat("")] raises ValueError. *)
Hypothesis fromisoformat_empty : fromisoformat "" = None.

Lemma parsed_timestamp_falsy (r : option record) (k : string) :
  truthy (field_or_null r k) = false ->
  parsed_timestamp fromisoformat r k = None.
Proof.
  unfold parsed_timestamp, field_or_null.
  destruct (field_of r k) as [[ | | | | s | | ] | ]; try reflexivity.
  simpl. destruct s; [intros _; exact fromisoformat_empty | discriminate].
Qed.

Lemma parsed_timestamp_truthy (r : option record) (k : string) :
  truthy (field_or_null r k) = true ->
  datetime_fromisoformat fromisoformat (field_or_null r k)
  = match parsed_timestamp fromisoformat r k with
    | Some t => Ok t
    | None =>
        match field_or_null r k with
        | JStr _ => Raise ValueError
        | _ => Raise TypeError
        end
    end.
Proof.
  intros H. unfold parsed_timestamp.
  rewrite (field_or_null_truthy r k H).
  destruct (field_or_null r k); reflexivity.
Qed.

(** Source 1 is step a. *)
Lemma wall_clock_from_cost_step (cost_rec : option record) :
  wall_clock_from_cost fromisoformat cost_rec
  = Ok (cost_step fromisoformat cost_rec).
Proof.
  unfold wall_clock_from_cost, cost_step, cost_seconds.
  rewrite !get_if_field.
  destruct (rec_truthy cost_rec) eqn:R; simpl.
  - destruct (truthy (field_or_null cost_rec "timestamp_start")) eqn:E1; simpl.
    + destruct (truthy (field_or_null cost_rec "timestamp_end")) eqn:E2.
      * rewrite (parsed_timestamp_truthy _ _ E1), (parsed_timestamp_truthy _ _ E2).
        destruct (parsed_timestamp fromisoformat cost_rec "timestamp_start")
          as [t_start | ].
        -- destruct (parsed_timestamp fromisoformat cost_rec "timestamp_end")
             as [t_end | ]; simpl.
           ++ unfold total_seconds_between.
              destruct (dt_offset t_end), (dt_offset t_start); simpl;
                try reflexivity;
                match goal with
                | |- context [Qle_bool 0 ?q] => destruct (Qle_bool 0 q)
                end; reflexivity.
           ++ destruct (field_or_null cost_rec "timestamp_end"); reflexivity.
        -- destruct (field_or_null cost_rec "timestamp_start"); reflexivity.
      * rewrite (parsed_timestamp_falsy _ _ E2).
        destruct (parsed_timestamp fromisoformat cost_rec "timestamp_start");
          reflexivity.
    + rewrite (parsed_timestamp_falsy _ _ E1). reflexivity.
  - destruct cost_rec as [[ | kv d] | ]; try discriminate; reflexivity.
Qed.

End EmptyTimestamp.

(** [float] raises TypeError, ValueError, or OverflowError on a large
    int. *)
Lemma py_float_raises (v : json) (e : exn) :
  py_float float_of_str v = Raise e ->
  e = TypeError \/ e = ValueError
  \/ exists z, v = JInt z /\ float_overflow z = true.
Proof.
  destruct v as [ | b | z | q | s | l | d]; simpl; intros H;
    try (injection H as <-; auto); try discriminate.
  - destruct (float_overflow z) eqn:E; [ | discriminate].
    right. right. eauto.
  - destruct (float_of_str s); [discriminate | ]. injection H as <-. auto.
Qed.

(** Source 2 is step b, short of an overflow. *)
Lemma wall_clock_from_balance_step (balance_rec : option record) :
  balance_overflows balance_rec = false ->
  wall_clock_from_balance float_of_str balance_rec
  = Ok (balance_step float_of_str balance_rec).
Proof.
  unfold wall_clock_from_balance, balance_step, balance_overflows.
  rewrite get_if_field. unfold field_or_null.
  destruct (rec_truthy balance_rec) eqn:R.
  - destruct (field_of balance_rec "task_completion_time_seconds")
      as [v | ]; [ | reflexivity].
    intros H.
    assert (G : try_except_value_type
                  (x <- py_float float_of_str v ;; Ok (Some (py_round x 2)))
                = Ok match py_float float_of_str v with
                     | Ok x => Some (py_round x 2)
                     | Raise _ => None
                     end).
    { destruct (py_float float_of_str v) as [x | e] eqn:E; simpl;
        [reflexivity | ].
      destruct (py_float_raises _ _ E) as [-> | [-> | [z [-> Hz]]]];
        try reflexivity.
      rewrite Hz in H. discriminate. }
    destruct v; exact G.
  - destruct balance_rec as [[ | kv d] | ]; try discriminate;
      intros _; reflexivity.
Qed.

(** C2 (amended): compute_wall_clock returns the first result of the
    ordered fallback: the cost record's end minus start in seconds,
    rounded to 2 places, if both timestamps parse as ISO-8601, can be
    subtracted and the difference is >= 0; else the balance record's
    completion time as float() converts it, rounded to 2 places,
    whatever its sign; else null.  A result taken from the cost
    timestamps is not negative.  (A completion time that is an int too
    large for a float is set aside.) *)
Theorem wall_clock_ordered_fallback (task_id : json)
    (cost_rec balance_rec : option record) :
  fromisoformat "" = None ->
  balance_overflows balance_rec = false ->
  compute_wall_clock fromisoformat float_of_str task_id cost_rec balance_rec
  = Ok (wall_clock_fallback fromisoformat float_of_str cost_rec balance_rec)
  /\ forall secs,
       cost_step fromisoformat cost_rec = Some secs -> (0 <= secs)%Q.
Proof.
  intros Hempty Hovf. split.
  - unfold compute_wall_clock, wall_clock_fallback.
    rewrite (wall_clock_from_cost_step Hempty cost_rec). cbn [bind].
    destruct (cost_step fromisoformat cost_rec); [reflexivity | ].
    rewrite (wall_clock_from_balance_step balance_rec Hovf). cbn [bind].
    destruct (balance_step float_of_str balance_rec); reflexivity.
  - unfold cost_step. intros secs.
    destruct (cost_seconds fromisoformat cost_rec) as [q | ]; [ | discriminate].
    destruct (Qle_bool 0 q) eqn:E; [ | discriminate].
    intros H. injection H as <-. apply py_round_nonneg.
    apply Qle_bool_iff. exact E.
Qed.

(** ** The date *)

Lemma py_or_chain (a b c d : json) :
  py_or (py_or (py_or a b) c) d = first_truthy [a; b; c] d.
Proof.
  unfold py_or. simpl.
  destruct (truthy a) eqn:Ea; [rewrite Ea, Ea; reflexivity | ].
  destruct (truthy b) eqn:Eb; [rewrite Eb; reflexivity | ].
  destruct (truthy c); reflexivity.
Qed.

(** C3 (amended): the date of a derived record is the first candidate
    that is true in Python's sense (not null, not missing, and not an
    empty string, zero, false or an empty container), in the order task
    record's date, cost record's date, income record's date, else the
    empty string; whenever the task record's date is such a value, that
    exact value is used. *)
Theorem date_first_truthy (now : string) (k : json) (task_rec : record)
    (cost_rec income_rec balance_rec : option record) (r : completion) :
  derive_record fromisoformat float_of_str now k task_rec
    cost_rec income_rec balance_rec = Ok r ->
  date r = first_truthy [get task_rec "date";
                         field_or_null cost_rec "date";
                         field_or_null income_rec "date"] (JStr "")
  /\ (truthy (get task_rec "date") = true -> date r = get task_rec "date").
Proof.
  intros H. apply derive_record_ok in H.
  destruct H as [s [m [_ [_ [_ [_ [Hd _]]]]]]].
  rewrite Hd, py_or_chain, !get_if_field. split; [reflexivity | ].
  simpl. intros ->. reflexivity.
Qed.

(** ** Exceptions *)

(** C6 (the script does not meet it): with an income record whose
    evaluation_score is null, [float] raises TypeError in derive_record,
    nothing catches it, and the process ends in a traceback, not with
    status zero. *)
Theorem null_score_uncaught (clock : nat -> string) (dry_run : bool) :
  main fromisoformat float_of_str clock (Some null_score_dir) dry_run
  = (Uncaught TypeError, Some null_score_dir).
Proof. reflexivity. Qed.

(** ** Missing files *)

Lemma derive_loop_no_income (clock : nat -> string) (c b : pydict record)
    (tasks : pydict record) :
  forall i,
    derive_loop fromisoformat float_of_str clock i tasks c [] b = Ok [].
Proof.
  induction tasks as [ | [k task_rec] tasks IH]; simpl; intros i;
    [reflexivity | apply IH].
Qed.

(** C7: an indexer whose file is absent returns an empty index (a pair
    of empty indexes for token_costs) and does not fail; without the
    task log the run returns with nothing derived, and without the
    token-cost log it returns with nothing derived whenever the other
    two logs load. *)
Theorem missing_file_empty_index (dir : agent_dir) :
  (work_tasks dir = None ->
   load_tasks dir = Ok []
   /\ forall clock dry_run,
        derive_task_completions fromisoformat float_of_str clock dir dry_run
        = Ok ([], dir))
  /\ (economic_token_costs dir = None ->
      load_token_costs dir = Ok ([], [])
      /\ forall clock dry_run tasks b,
           load_tasks dir = Ok tasks -> load_balance dir = Ok b ->
           exists dir',
             derive_task_completions fromisoformat float_of_str
               clock dir dry_run = Ok ([], dir'))
  /\ (economic_balance dir = None -> load_balance dir = Ok []).
Proof.
  split; [intros H; split | split; [intros H; split | intros H]].
  - unfold load_tasks. rewrite H. reflexivity.
  - intros clock dry_run. unfold derive_task_completions, load_tasks.
    rewrite H. reflexivity.
  - unfold load_token_costs. rewrite H. reflexivity.
  - intros clock dry_run tasks b Ht Hb.
    unfold derive_task_completions. rewrite Ht. cbn [bind].
    destruct tasks as [ | kv tasks]; [eauto | ].
    unfold load_token_costs. rewrite H. cbn [bind]. rewrite Hb. cbn [bind].
    rewrite derive_loop_no_income. cbn [bind].
    unfold sort_by_date. simpl. destruct dry_run; eauto.
  - unfold load_balance. rewrite H. reflexivity.
Qed.

(** ** The output file *)

(** C8 (amended): in write mode, when the run returns and the task
    index is not empty, [economic/] exists afterwards and
    economic/task_completions.jsonl holds exactly the returned list,
    sorted by date, one record per line, in place of whatever the file
    held, also when that list is empty; the three logs are untouched.
    When the task index is empty the run derives nothing and leaves
    the directory as it found it. *)
Theorem write_mode_overwrites (clock : nat -> string)
    (dir dir' : agent_dir) (out : list completion) (tasks : pydict record) :
  derive_task_completions fromisoformat float_of_str clock dir false
  = Ok (out, dir') ->
  load_tasks dir = Ok tasks ->
  (tasks <> [] ->
   economic_exists dir' = true
   /\ economic_task_completions dir' = written out
   /\ non_decreasing_by_date out
   /\ work_tasks dir' = work_tasks dir
   /\ economic_token_costs dir' = economic_token_costs dir
   /\ economic_balance dir' = economic_balance dir)
  /\ (tasks = [] -> out = [] /\ dir' = dir).
Proof.
  intros H Ht. apply run_inv in H. destruct H as [tasks' [Ht' H]].
  assert (tasks' = tasks) by congruence. subst tasks'.
  destruct H as [[-> [-> ->]] | [N H]].
  - split; [intros C; exfalso; apply C; reflexivity | auto].
  - split; [intros _ | intros C; contradiction].
    destruct H as [c [i [b [derived [_ [_ [_ [Hs ->]]]]]]]].
    destruct (sort_by_date_spec _ _ Hs) as [S _].
    repeat split. exact S.
Qed.

End Proofs.

(** * The script on the sample logs *)

(** The three scenarios of the specification: T1 is derived with score
    0.8, 5.0 earned and 300 seconds; T2 is left out; T3 is derived
    with no wall-clock value. *)
Example scenario_run :
  map (fun r => (task_id r, evaluation_score r, money_earned r,
                 wall_clock_seconds r, work_submitted r))
      (returned (run noon scenario_dir true))
  = [ (JStr "T1", 4 # 5, 5, Some 300, true);
      (JStr "T3", 1 # 2, 2, None, true) ]%Q.
Proof. reflexivity. Qed.

(** A score that [float] rejects as text ends the run with ValueError. *)
Example text_score_uncaught :
  main iso_seconds decimal_float noon (Some text_score_dir) false
  = (Uncaught ValueError, Some text_score_dir).
Proof. reflexivity. Qed.

(** A line of the task log that parses to a JSON array ends the run
    with AttributeError. *)
Example array_line_uncaught :
  main iso_seconds decimal_float noon (Some array_line_dir) false
  = (Uncaught AttributeError, Some array_line_dir).
Proof. reflexivity. Qed.

(** A date that is a string and a date that is a number cannot be
    ordered: the sort ends the run with TypeError. *)
Example mixed_dates_uncaught :
  main iso_seconds decimal_float noon (Some mixed_dates_dir) false
  = (Uncaught TypeError, Some mixed_dates_dir).
Proof. reflexivity. Qed.

(** A directory that does not exist ends the run with status 1. *)
Example missing_root_exit (clock : nat -> string) (dry_run : bool) :
  main iso_seconds decimal_float clock None dry_run = (Exit 1, None).
Proof. reflexivity. Qed.

(** ** C1 *)

(** C1 as stated fails: T1 has an income record and no task
    assignment, and no record is derived for it. *)
Lemma income_without_assignment :
  ~ derived_iff_income iso_seconds decimal_float income_only_dir (JStr "T1").
Proof.
  intros H.
  destruct (H noon false [] income_only_dir eq_refl) as [_ G].
  destruct (G eq_refl) as [r [[] _]].
Qed.

Lemma derived_iff_assigned_and_submitted_witness :
  derive_task_completions iso_seconds decimal_float noon scenario_dir true
  = Ok (returned (run noon scenario_dir true), scenario_dir)
  /\ (derived_for (returned (run noon scenario_dir true)) (JStr "T1")
      <-> assigned scenario_dir (JStr "T1") = true
          /\ submitted scenario_dir (JStr "T1") = true).
Proof.
  split; [reflexivity | ].
  apply (derived_iff_assigned_and_submitted iso_seconds decimal_float
           noon scenario_dir scenario_dir true).
  reflexivity.
Defined.

(** ** C2 *)

(** C2 as stated fails: with no cost record and a balance record whose
    completion time is -5, compute_wall_clock returns -5.0. *)
Lemma negative_balance_duration :
  ~ wall_clock_never_negative iso_seconds decimal_float
      None (Some negative_balance).
Proof.
  intros H. specialize (H (JStr "T1") (-5 # 1)%Q eq_refl).
  unfold Qle in H. simpl in H. lia.
Qed.

Lemma wall_clock_ordered_fallback_witness :
  iso_seconds "" = None
  /\ balance_overflows (Some negative_balance) = false
  /\ compute_wall_clock iso_seconds decimal_float (JStr "T1")
       (Some dated_cost) (Some negative_balance)
     = Ok (wall_clock_fallback iso_seconds decimal_float
             (Some dated_cost) (Some negative_balance))
  /\ forall secs,
       cost_step iso_seconds (Some dated_cost) = Some secs -> (0 <= secs)%Q.
Proof.
  split; [reflexivity | ]. split; [reflexivity | ].
  apply (wall_clock_ordered_fallback iso_seconds decimal_float (JStr "T1")
           (Some dated_cost) (Some negative_balance));
    reflexivity.
Defined.

(** ** C3 *)

(** C3 as stated fails: the task record's date is the empty string,
    present and not null, and the derived date is the cost record's. *)
Lemma empty_task_date_skipped :
  ~ date_is_first_present iso_seconds decimal_float
      undated_task (Some dated_cost) (Some plain_income) None.
Proof.
  intros H.
  specialize (H "2024-06-01T12:00:00"%string (JStr "T1") undated_derived
                eq_refl).
  discriminate H.
Qed.

Lemma date_first_truthy_witness :
  derive_record iso_seconds decimal_float "2024-06-01T12:00:00" (JStr "T1")
    undated_task (Some dated_cost) (Some plain_income) None
  = Ok undated_derived
  /\ date undated_derived
     = first_truthy [get undated_task "date";
                     field_or_null (Some dated_cost) "date";
                     field_or_null (Some plain_income) "date"] (JStr "")
  /\ (truthy (get undated_task "date") = true ->
      date undated_derived = get undated_task "date").
Proof.
  split; [reflexivity | ].
  apply (date_first_truthy iso_seconds decimal_float
           "2024-06-01T12:00:00" (JStr "T1") undated_task
           (Some dated_cost) (Some plain_income) None).
  reflexivity.
Defined.

(** ** C4 *)

Lemma last_record_wins_witness :
  load_tasks retry_dir = Ok (loaded (load_tasks retry_dir))
  /\ load_token_costs retry_dir
     = Ok (fst (loaded_pair (load_token_costs retry_dir)),
           snd (loaded_pair (load_token_costs retry_dir)))
  /\ load_balance retry_dir = Ok (loaded (load_balance retry_dir))
  /\ derive_task_completions iso_seconds decimal_float noon retry_dir false
     = Ok (returned (run noon retry_dir false),
           left_by retry_dir (run noon retry_dir false))
  /\ forall r,
       In r (returned (run noon retry_dir false)) ->
       py_eq (JStr "T1") (task_id r) = true ->
       exists income_rec score,
         last_record is_income (JStr "T1") (token_records retry_dir)
         = Some income_rec
         /\ py_float decimal_float
              (get_default income_rec "evaluation_score" (JFloat 0))
            = Ok score
         /\ evaluation_score r = py_round score 4.
Proof.
  split; [reflexivity | ]. split; [reflexivity | ].
  split; [reflexivity | ]. split; [reflexivity | ].
  apply (last_record_wins iso_seconds decimal_float noon retry_dir
           (left_by retry_dir (run noon retry_dir false)) false
           (returned (run noon retry_dir false))
           (loaded (load_tasks retry_dir))
           (fst (loaded_pair (load_token_costs retry_dir)))
           (snd (loaded_pair (load_token_costs retry_dir)))
           (loaded (load_balance retry_dir))
           (JStr "T1"));
    reflexivity.
Defined.

(** The later score, 0.9, is the one derived for T1. *)
Example retry_score :
  map (fun r => (task_id r, date r, evaluation_score r))
      (returned (run noon retry_dir false))
  = [ (JStr "T3", JStr "2024-01-01", 3 # 10);
      (JStr "T2", JStr "2024-01-01", 1 # 2);
      (JStr "T1", JStr "2024-01-05", 9 # 10) ]%Q.
Proof. reflexivity. Qed.

(** ** C5 *)


(** ** C7 *)

Lemma missing_file_empty_index_witness :
  work_tasks empty_dir = None
  /\ economic_token_costs empty_dir = None
  /\ economic_balance empty_dir = None
  /\ load_tasks empty_dir = Ok []
  /\ load_token_costs empty_dir = Ok ([], [])
  /\ load_balance empty_dir = Ok []
  /\ forall clock dry_run,
       derive_task_completions iso_seconds decimal_float
         clock empty_dir dry_run = Ok ([], empty_dir).
Proof.
  destruct (missing_file_empty_index iso_seconds decimal_float empty_dir)
    as [H1 [H2 H3]].
  destruct (H1 eq_refl) as [L1 R1]. destruct (H2 eq_refl) as [L2 _].
  repeat split; try reflexivity; auto.
Defined.

(** ** C8 *)

(** C8 as stated fails: in write mode, with no task log, the run
    returns an empty list and the output file of the earlier run stays
    as it was. *)
Lemma stale_output_kept :
  ~ write_mode_always_writes iso_seconds decimal_float stale_dir.
Proof.
  intros H. destruct (H noon [] stale_dir eq_refl) as [_ G].
  discriminate G.
Qed.

Lemma write_mode_overwrites_witness :
  derive_task_completions iso_seconds decimal_float noon scenario_dir false
  = Ok (returned (run noon scenario_dir false),
        left_by scenario_dir (run noon scenario_dir false))
  /\ load_tasks scenario_dir = Ok (loaded (load_tasks scenario_dir))
  /\ loaded (load_tasks scenario_dir) <> []
  /\ economic_exists (left_by scenario_dir (run noon scenario_dir false))
     = true
  /\ economic_task_completions
       (left_by scenario_dir (run noon scenario_dir false))
     = written (returned (run noon scenario_dir false)).
Proof.
  split; [reflexivity | ]. split; [reflexivity | ].
  split; [discriminate | ].
  destruct (write_mode_overwrites iso_seconds decimal_float noon
              scenario_dir
              (left_by scenario_dir (run noon scenario_dir false))
              (returned (run noon scenario_dir false))
              (loaded (load_tasks scenario_dir))
              eq_refl eq_refl) as [W _].
  destruct W as [W1 [W2 _]]; [discriminate | ].
  split; [exact W1 | exact W2].
Defined.

(** ** C9 *)

Lemma derivation_deterministic_witness :
  all_timestamps_logged retry_dir = true
  /\ derive_task_completions iso_seconds decimal_float noon retry_dir false
     = derive_task_completions iso_seconds decimal_float midnight
         retry_dir false.
Proof.
  split; [reflexivity | ].
  apply (derivation_deterministic iso_seconds decimal_float noon midnight
           retry_dir false).
  reflexivity.
Defined.

(** ** C10 *)

Lemma output_within_task_index_witness :
  derive_task_completions iso_seconds decimal_float noon orphan_dir false
  = Ok (returned (run noon orphan_dir false),
        left_by orphan_dir (run noon orphan_dir false))
  /\ load_tasks orphan_dir = Ok (loaded (load_tasks orphan_dir))
  /\ submitted orphan_dir (JStr "T9") = true
  /\ pd_get (JStr "T9") (loaded (load_tasks orphan_dir)) = None
  /\ ~ derived_for (returned (run noon orphan_dir false)) (JStr "T9").
Proof.
  split; [reflexivity | ]. split; [reflexivity | ].
  split; [reflexivity | ]. split; [reflexivity | ].
  destruct (output_within_task_index iso_seconds decimal_float noon
              orphan_dir (left_by orphan_dir (run noon orphan_dir false))
              false (returned (run noon orphan_dir false))
              (loaded (load_tasks orphan_dir)) eq_refl eq_refl) as [_ G].
  apply (G (JStr "T9")); reflexivity.
Defined.

(** * Properties of the rest of the script *)

(** ** Malformed lines *)

Lemma malformed_line_numbers_spec (lines : list line) :
  forall start i,
    In i (malformed_line_numbers start lines)
    <-> (start <= i)%nat /\ nth_error lines (i - start) = Some Malformed.
Proof.
  induction lines as [ | l lines IH]; intros start i.
  - simpl. split; [tauto | ]. intros [_ H].
    destruct (i - start)%nat; discriminate.
  - assert (R : (S start <= i)%nat /\
                nth_error lines (i - S start) = Some Malformed
                <-> (start < i)%nat /\
                    nth_error (l :: lines) (i - start) = Some Malformed).
    { split; intros [H1 H2]; (split; [lia | ]).
      - replace (i - start)%nat with (S (i - S start)) by lia. exact H2.
      - replace (i - start)%nat with (S (i - S start)) in H2 by lia. exact H2. }
    assert (Z : forall x, nth_error (l :: lines) (start - start) = Some x
                          <-> l = x).
    { intros x. rewrite Nat.sub_diag. simpl.
      split; [intros H; injection H; auto | intros ->; reflexivity]. }
    destruct l; simpl malformed_line_numbers; [ | simpl In | ];
      rewrite ?IH, R.
    + split; [intros [H1 H2]; split; [lia | exact H2] | ].
      intros [H1 H2]. split; [ | exact H2].
      destruct (Nat.eq_dec start i) as [<- | N]; [ | lia].
      apply Z in H2. discriminate.
    + split.
      * intros [<- | [H1 H2]]; [split; [lia | apply Z; reflexivity] | ].
        split; [lia | exact H2].
      * intros [H1 H2].
        destruct (Nat.eq_dec start i) as [E | N]; [left; exact E | ].
        right. split; [lia | exact H2].
    + split; [intros [H1 H2]; split; [lia | exact H2] | ].
      intros [H1 H2]. split; [ | exact H2].
      destruct (Nat.eq_dec start i) as [<- | N]; [ | lia].
      apply Z in H2. discriminate.
Qed.

Lemma load_jsonl_accounts (lines : list line) :
  forall start,
    (List.length (load_jsonl lines)
     + List.length (malformed_line_numbers start lines)
     + List.length (filter is_blank lines)
     = List.length lines)%nat.
Proof.
  induction lines as [ | l lines IH]; intros start; [reflexivity | ].
  destruct l; simpl; rewrite <- (IH (S start)); lia.
Qed.

(** X1: load_jsonl reports a malformed line by its 1-based position in
    the file, blank lines counted: the numbers reported are exactly the
    positions of the lines that json.loads rejects; and every line is
    returned as a record, reported, or blank. *)
Theorem malformed_lines_reported (lines : list line) (i : nat) :
  (In i (malformed_line_numbers 1 lines)
   <-> (1 <= i)%nat /\ nth_error lines (i - 1) = Some Malformed)
  /\ (List.length (load_jsonl lines)
      + List.length (malformed_line_numbers 1 lines)
      + List.length (filter is_blank lines)
      = List.length lines)%nat.
Proof.
  split; [apply malformed_line_numbers_spec | apply load_jsonl_accounts].
Qed.

(** ** When a loader raises *)





Lemma load_tasks_records (dir : agent_dir) :
  load_tasks dir = index_by any_record (task_records dir) [].
Proof.
  unfold load_tasks, task_records, records_of.
  destruct (work_tasks dir); [apply index_tasks_by | reflexivity].
Qed.

Lemma load_token_costs_records (dir : agent_dir) :
  load_token_costs dir = index_token_costs (token_records dir) [] [].
Proof.
  unfold load_token_costs, token_records, records_of.
  destruct (economic_token_costs dir); reflexivity.
Qed.

Lemma load_balance_records (dir : agent_dir) :
  load_balance dir = index_by is_balance (balance_records_of dir) [].
Proof.
  unfold load_balance, balance_records_of, records_of.
  destruct (economic_balance dir); [apply index_balance_by | reflexivity].
Qed.


(** ** What an index holds *)

Lemma last_record_some (sel : record -> bool) (T : json) (recs : list json)
    (r : record) :
  last_record sel T recs = Some r -> stored_as sel recs T r.
Proof.
  unfold last_record, stored_as.
  destruct (find (record_for sel T) (rev recs)) as [rec | ] eqn:E;
    [ | discriminate].
  apply find_some in E. destruct E as [Hin Hrec].
  destruct rec; try discriminate. intros H. injection H as ->.
  apply in_rev in Hin. simpl in Hrec.
  apply andb_true_iff in Hrec. destruct Hrec as [Hrec Hsel].
  apply andb_true_iff in Hrec. tauto.
Qed.

(** X3: every entry of an index is a record of its file, stored under
    its own task identifier, and of the kind of the index: the income
    index holds only records of type "work_income", the cost index only
    records that are not of that type and carry both timestamp keys,
    the balance index no record dated "initialization". *)
Theorem index_entries (dir : agent_dir) (tasks c i b : pydict record)
    (T : json) (r : record) :
  load_tasks dir = Ok tasks ->
  load_token_costs dir = Ok (c, i) ->
  load_balance dir = Ok b ->
  (pd_get T tasks = Some r -> stored_as any_record (task_records dir) T r)
  /\ (pd_get T i = Some r ->
      stored_as is_income (token_records dir) T r)
  /\ (pd_get T c = Some r ->
      stored_as is_cost (token_records dir) T r
      /\ is_income r = false
      /\ has_key r "timestamp_start" = true
      /\ has_key r "timestamp_end" = true)
  /\ (pd_get T b = Some r ->
      stored_as is_balance (balance_records_of dir) T r
      /\ py_eq (get r "date") (JStr "initialization") = false).
Proof.
  intros Ht Hc Hb.
  destruct (load_tasks_spec _ _ Ht) as [Gt _].
  destruct (load_token_costs_spec _ _ _ Hc) as [Gc [Gi _]].
  destruct (load_balance_spec _ _ Hb) as [Gb _].
  rewrite Gt, Gc, Gi, Gb.
  split; [apply last_record_some | ].
  split; [apply last_record_some | ].
  split; intros H; apply last_record_some in H;
    (split; [exact H | ]); destruct H as [_ [_ [_ H]]].
  - unfold is_cost in H. apply andb_true_iff in H. destruct H as [H H2].
    apply andb_true_iff in H. destruct H as [H H1].
    destruct (is_income r); [discriminate | auto].
  - unfold is_balance in H.
    destruct (py_eq _ _); [discriminate | reflexivity].
Qed.

Lemma index_entries_witness :
  load_tasks retry_dir = Ok (loaded (load_tasks retry_dir))
  /\ load_token_costs retry_dir
     = Ok (fst (loaded_pair (load_token_costs retry_dir)),
           snd (loaded_pair (load_token_costs retry_dir)))
  /\ load_balance retry_dir = Ok (loaded (load_balance retry_dir))
  /\ (pd_get (JStr "T1") (snd (loaded_pair (load_token_costs retry_dir)))
      = Some [("task_id", JStr "T1"); ("type", JStr "work_income");
              ("evaluation_score", JFloat (9 # 10));
              ("actual_payment", JFloat 5);
              ("timestamp", JStr "2024-01-01T10:06:00")]%string ->
      stored_as is_income (token_records retry_dir) (JStr "T1")
        [("task_id", JStr "T1"); ("type", JStr "work_income");
         ("evaluation_score", JFloat (9 # 10));
         ("actual_payment", JFloat 5);
         ("timestamp", JStr "2024-01-01T10:06:00")]%string).
Proof.
  split; [reflexivity | ]. split; [reflexivity | ]. split; [reflexivity | ].
  apply (index_entries retry_dir
           (loaded (load_tasks retry_dir))
           (fst (loaded_pair (load_token_costs retry_dir)))
           (snd (loaded_pair (load_token_costs retry_dir)))
           (loaded (load_balance retry_dir)) (JStr "T1")); reflexivity.
Defined.

Section MoreProofs.

Variable fromisoformat : string -> option datetime.
Variable float_of_str : string -> option Q.

(** ** The run reads the records only *)

(** The outcome of a run in terms of the records of the three logs. *)
Lemma outcome_records (clock : nat -> string) (dir : agent_dir)
    (dry_run : bool) :
  outcome (derive_task_completions fromisoformat float_of_str
             clock dir dry_run)
  = (tasks <- index_by any_record (task_records dir) [] ;;
     match tasks with
     | [] => Ok []
     | _ :: _ =>
         indexes <- index_token_costs (token_records dir) [] [] ;;
         b <- index_by is_balance (balance_records_of dir) [] ;;
         derived <- derive_loop fromisoformat float_of_str clock 0 tasks
                      (fst indexes) (snd indexes) b ;;
         sort_by_date derived
     end).
Proof.
  unfold derive_task_completions.
  rewrite load_tasks_records, load_token_costs_records, load_balance_records.
  destruct (index_by any_record (task_records dir) []) as [tasks | e];
    cbn [bind outcome]; [ | reflexivity].
  destruct tasks as [ | kv tasks]; [reflexivity | ].
  destruct (index_token_costs (token_records dir) [] []) as [[c i] | e];
    cbn [bind outcome fst snd]; [ | reflexivity].
  destruct (index_by is_balance (balance_records_of dir) []) as [b | e];
    cbn [bind outcome]; [ | reflexivity].
  destruct (derive_loop fromisoformat float_of_str clock 0 (kv :: tasks) c i b)
    as [derived | e]; cbn [bind outcome]; [ | reflexivity].
  destruct (sort_by_date derived) as [out | e]; cbn [bind outcome];
    [ | reflexivity].
  destruct dry_run; reflexivity.
Qed.

(** X4: the derivation sees a log only through the records that parse:
    two directories whose three logs yield the same records give the
    same list, or the same exception, in either mode.  So a missing
    log, an empty one and one of blank or malformed lines only are
    alike, and a malformed line changes nothing around it. *)
Theorem same_records_same_outcome (clock : nat -> string)
    (dir1 dir2 : agent_dir) (dry_run1 dry_run2 : bool) :
  task_records dir1 = task_records dir2 ->
  token_records dir1 = token_records dir2 ->
  balance_records_of dir1 = balance_records_of dir2 ->
  outcome (derive_task_completions fromisoformat float_of_str
             clock dir1 dry_run1)
  = outcome (derive_task_completions fromisoformat float_of_str
               clock dir2 dry_run2).
Proof.
  intros H1 H2 H3. rewrite !outcome_records, H1, H2, H3. reflexivity.
Qed.

(** ** Dry run and second run *)

(** X5: a dry run leaves the directory as it found it, and returns the
    list (or raises the exception) that the run in write mode does. *)
Theorem dry_run_changes_nothing (clock : nat -> string) (dir : agent_dir) :
  left_by dir (derive_task_completions fromisoformat float_of_str
                 clock dir true) = dir
  /\ outcome (derive_task_completions fromisoformat float_of_str
                clock dir true)
     = outcome (derive_task_completions fromisoformat float_of_str
                  clock dir false).
Proof.
  split; [ | rewrite !outcome_records; reflexivity].
  destruct (derive_task_completions fromisoformat float_of_str clock dir true)
    as [[out dir'] | e] eqn:E; [ | reflexivity].
  apply run_inv in E. destruct E as [tasks [_ [[_ [_ H]] | [_ H]]]].
  - exact H.
  - destruct H as [c [i [b [derived [_ [_ [_ [_ H]]]]]]]]. exact H.
Qed.

(** X6: the output file is not an input: a second run in write mode
    over the directory that a first run left, at the same clock,
    returns the same list and leaves the same directory. *)
Theorem second_run_same (clock : nat -> string) (dir dir' : agent_dir)
    (out : list completion) :
  derive_task_completions fromisoformat float_of_str clock dir false
  = Ok (out, dir') ->
  derive_task_completions fromisoformat float_of_str clock dir' false
  = Ok (out, dir').
Proof.
  intros H. pose proof (run_inv _ _ _ _ _ _ _ H) as I.
  destruct I as [tasks [Ht [[_ [_ ->]] | [N I]]]]; [exact H | ].
  destruct I as [c [i [b [derived [Hc [Hb [Hd [Hs ->]]]]]]]].
  unfold derive_task_completions.
  change (load_tasks (write_completions dir out)) with (load_tasks dir).
  change (load_token_costs (write_completions dir out))
    with (load_token_costs dir).
  change (load_balance (write_completions dir out)) with (load_balance dir).
  rewrite Ht. cbn [bind]. destruct tasks as [ | kv tasks]; [contradiction | ].
  rewrite Hc. cbn [bind]. rewrite Hb. cbn [bind]. rewrite Hd. cbn [bind].
  rewrite Hs. reflexivity.
Qed.

(** ** One record per submitted task *)

Lemma NoDup_map_filter {A B : Type} (g : A -> B) (f : A -> bool)
    (l : list A) :
  NoDup (map g l) -> NoDup (map g (filter f l)).
Proof.
  induction l as [ | x l IH]; simpl; intros N; [constructor | ].
  inversion N as [ | y m Hx Hl]; subst.
  destruct (f x); simpl; [ | apply IH; exact Hl].
  constructor; [ | apply IH; exact Hl].
  intros Hin. apply Hx. apply in_map_iff in Hin.
  destruct Hin as [z [Hz Hin]]. apply filter_In in Hin.
  apply in_map_iff. exists z. tauto.
Qed.

Lemma filter_length_le {A : Type} (f g : A -> bool) (l : list A) :
  (forall x, f x = true -> g x = true) ->
  (List.length (filter f l) <= List.length (filter g l))%nat.
Proof.
  intros H. induction l as [ | x l IH]; simpl; [lia | ].
  destruct (f x) eqn:E; [rewrite (H x E); simpl; lia | ].
  destruct (g x); simpl; lia.
Qed.

Lemma filter_length_split {A : Type} (f : A -> bool) (l : list A) :
  (List.length (filter f l) + List.length (filter (fun x => negb (f x)) l)
   = List.length l)%nat.
Proof.
  induction l as [ | x l IH]; simpl; [reflexivity | ].
  destruct (f x); simpl; lia.
Qed.

Lemma filter_length_le_all {A : Type} (f : A -> bool) (l : list A) :
  (List.length (filter f l) <= List.length l)%nat.
Proof.
  induction l as [ | x l IH]; simpl; [lia | ]. destruct (f x); simpl; lia.
Qed.

Lemma Forall2_length_eq {A B : Type} (R : A -> B -> Prop) (l : list A)
    (l' : list B) :
  Forall2 R l l' -> List.length l = List.length l'.
Proof. induction 1; simpl; congruence. Qed.

(** X7: the output holds one record per submitted task: the task
    identifiers of the output are pairwise different, and there are as
    many records as entries of the task index with an income record. *)
Theorem one_record_per_task (clock : nat -> string) (dir dir' : agent_dir)
    (dry_run : bool) (out : list completion) (tasks : pydict record) :
  derive_task_completions fromisoformat float_of_str clock dir dry_run
  = Ok (out, dir') ->
  load_tasks dir = Ok tasks ->
  NoDup (map (fun r => canon (task_id r)) out)
  /\ List.length out
     = List.length (filter (fun kv => submitted dir (fst kv)) tasks)
  /\ (List.length out <= List.length tasks)%nat.
Proof.
  intros H Ht. apply run_records in H.
  destruct H as [tasks' [derived [Ht' [F [_ [P _]]]]]].
  assert (tasks' = tasks) by congruence. subst tasks'.
  destruct (load_tasks_spec _ _ Ht) as [_ U].
  assert (L : List.length out
              = List.length (filter (fun kv : json * record =>
                                       submitted dir (fst kv)) tasks)).
  { rewrite <- (Permutation_length P). symmetry.
    exact (Forall2_length_eq _ _ _ F). }
  split; [ | split; [exact L | rewrite L; apply filter_length_le_all]].
  apply (Permutation_NoDup
           (Permutation_map (fun r => canon (task_id r)) P)).
  assert (M : map (fun r => canon (task_id r)) derived
              = map (fun kv : json * record => canon (fst kv))
                  (filter (fun kv => submitted dir (fst kv)) tasks)).
  { clear - F. induction F as [ | kv r l l' Hr _ IH]; simpl;
      [reflexivity | rewrite Hr, IH; reflexivity]. }
  rewrite M. apply NoDup_map_filter. exact U.
Qed.

(** ** The fields of a derived record *)

Lemma first_truthy_not_null (candidates : list json) (default : json) :
  default <> JNull -> first_truthy candidates default <> JNull.
Proof.
  intros D. induction candidates as [ | v rest IH]; simpl; [exact D | ].
  destruct (truthy v) eqn:E; [ | exact IH].
  intros ->. discriminate.
Qed.

Lemma derive_record_timestamp (now : string) (k : json) (task_rec : record)
    (cost_rec income_rec balance_rec : option record) (r : completion) :
  derive_record fromisoformat float_of_str now k task_rec
    cost_rec income_rec balance_rec = Ok r ->
  timestamp r
  = first_truthy (timestamp_candidates cost_rec income_rec) (JStr now).
Proof.
  unfold derive_record. intros H.
  apply bind_ok in H. destruct H as [s [_ H]].
  apply bind_ok in H. destruct H as [m [_ H]].
  apply bind_ok in H. destruct H as [w [_ H]].
  injection H as <-. simpl. rewrite !get_if_field.
  assert (T : forall x : option record, forall key,
             rec_truthy x && truthy (field_or_null x key)
             = truthy (field_or_null x key)).
  { intros [[ | kv d] | ] key; reflexivity. }
  rewrite !T.
  destruct (truthy (field_or_null cost_rec "timestamp_end")) eqn:E1.
  - destruct (field_or_null cost_rec "timestamp_end");
      try reflexivity; discriminate.
  - destruct (truthy (field_or_null income_rec "timestamp")) eqn:E2;
      [ | reflexivity].
    destruct (field_or_null income_rec "timestamp");
      try reflexivity; discriminate.
Qed.

(** X8: every record of the output has attempt 1, work_submitted true
    and _derived true, and neither its date nor its timestamp is
    null. *)
Theorem output_record_fields (clock : nat -> string) (dir dir' : agent_dir)
    (dry_run : bool) (out : list completion) (r : completion) :
  derive_task_completions fromisoformat float_of_str clock dir dry_run
  = Ok (out, dir') ->
  In r out ->
  attempt r = 1%Z /\ work_submitted r = true /\ _derived r = true
  /\ date r <> JNull /\ timestamp r <> JNull.
Proof.
  intros H Hin.
  destruct (run_record_origin _ _ _ _ _ _ _ _ H Hin)
    as [tasks [c [i [b [k [task_rec [income_rec [j O]]]]]]]].
  destruct O as [_ [_ [_ [_ [_ Hd]]]]].
  pose proof (derive_record_timestamp _ _ _ _ _ _ _ Hd) as Hts.
  apply derive_record_ok in Hd.
  destruct Hd as [s [m [_ [_ [_ [_ [Hdate [_ [_ [Hw [Ha Hm]]]]]]]]]]].
  repeat split; try assumption.
  - rewrite Hdate, py_or_chain. apply first_truthy_not_null. discriminate.
  - rewrite Hts. apply first_truthy_not_null. discriminate.
Qed.

(** X9: the timestamp of a derived record is the cost record's end
    timestamp if that is true in Python's sense, else the income
    record's timestamp if that is, else the time read from the clock;
    the clock's time is used exactly when neither is logged, unless a
    logged timestamp is that very string. *)
Theorem timestamp_priority (now : string) (k : json) (task_rec : record)
    (cost_rec income_rec balance_rec : option record) (r : completion) :
  derive_record fromisoformat float_of_str now k task_rec
    cost_rec income_rec balance_rec = Ok r ->
  timestamp r
  = first_truthy (timestamp_candidates cost_rec income_rec) (JStr now)
  /\ (timestamp_logged cost_rec income_rec = false -> timestamp r = JStr now)
  /\ (timestamp_logged cost_rec income_rec = true ->
      truthy (timestamp r) = true
      /\ In (timestamp r) (timestamp_candidates cost_rec income_rec)).
Proof.
  intros H. apply derive_record_timestamp in H. rewrite H.
  split; [reflexivity | ].
  unfold timestamp_logged, timestamp_candidates. rewrite !get_if_field.
  assert (T : forall x : option record, forall key,
             rec_truthy x && truthy (field_or_null x key)
             = truthy (field_or_null x key)).
  { intros [[ | kv d] | ] key; reflexivity. }
  rewrite !T. simpl.
  destruct (truthy (field_or_null cost_rec "timestamp_end")) eqn:E1; simpl.
  - split; [discriminate | intros _; auto].
  - destruct (truthy (field_or_null income_rec "timestamp")) eqn:E2.
    + split; [discriminate | intros _; auto].
    + split; [reflexivity | discriminate].
Qed.

(** ** Exceptions of compute_wall_clock *)

Lemma wall_clock_from_cost_returns (cost_rec : option record) :
  exists w, wall_clock_from_cost fromisoformat cost_rec = Ok w.
Proof.
  unfold wall_clock_from_cost.
  destruct (rec_truthy cost_rec
            && truthy (get_if cost_rec "timestamp_start")
            && truthy (get_if cost_rec "timestamp_end")); [ | eauto].
  destruct (datetime_fromisoformat fromisoformat
              (get_if cost_rec "timestamp_start")) as [t_start | e] eqn:E1.
  - destruct (datetime_fromisoformat fromisoformat
                (get_if cost_rec "timestamp_end")) as [t_end | e] eqn:E2.
    + cbn [bind]. unfold total_seconds_between.
      destruct (dt_offset t_end), (dt_offset t_start); cbn [bind];
        try (simpl; eauto; fail);
        match goal with
        | |- context [Qle_bool 0 ?q] => destruct (Qle_bool 0 q)
        end; simpl; eauto.
    + cbn [bind]. unfold datetime_fromisoformat in E2.
      destruct (get_if cost_rec "timestamp_end"); try discriminate;
        try (injection E2 as <-; simpl; eauto).
      destruct (fromisoformat s); [discriminate | ].
      injection E2 as <-. simpl. eauto.
  - cbn [bind]. unfold datetime_fromisoformat in E1.
    destruct (get_if cost_rec "timestamp_start"); try discriminate;
      try (injection E1 as <-; simpl; eauto).
    destruct (fromisoformat s); [discriminate | ].
    injection E1 as <-. simpl. eauto.
Qed.

Lemma wall_clock_from_balance_overflow (balance_rec : option record) :
  balance_overflows balance_rec = true ->
  wall_clock_from_balance float_of_str balance_rec = Raise OverflowError.
Proof.
  unfold balance_overflows, wall_clock_from_balance.
  rewrite get_if_field. unfold field_or_null.
  destruct balance_rec as [[ | kv d] | ]; try discriminate.
  simpl rec_truthy. cbv iota.
  destruct (field_of _ "task_completion_time_seconds") as [v | ];
    [ | discriminate].
  destruct v; try discriminate.
  intros H. simpl. rewrite H. reflexivity.
Qed.

(** X10: compute_wall_clock raises in one case only: source 1 gives no
    value and the balance record's completion time is an int beyond
    the range of a float; the exception is then OverflowError, which
    its except clauses do not name.  In every other case it returns. *)
Theorem wall_clock_raises_iff (task_id : json)
    (cost_rec balance_rec : option record) (e : exn) :
  compute_wall_clock fromisoformat float_of_str task_id cost_rec balance_rec
  = Raise e
  <-> e = OverflowError
      /\ wall_clock_from_cost fromisoformat cost_rec = Ok None
      /\ balance_overflows balance_rec = true.
Proof.
  unfold compute_wall_clock.
  destruct (wall_clock_from_cost_returns cost_rec) as [w Hw].
  rewrite Hw. cbn [bind]. destruct w as [secs | ].
  - split; [discriminate | intros [_ [H _]]; discriminate].
  - destruct (balance_overflows balance_rec) eqn:B.
    + rewrite (wall_clock_from_balance_overflow _ B). cbn [bind].
      split; [intros H; injection H as <-; auto | ].
      intros [-> _]. reflexivity.
    + rewrite (wall_clock_from_balance_step float_of_str _ B). cbn [bind].
      destruct (balance_step float_of_str balance_rec);
        (split; [discriminate | intros [_ [_ H]]; discriminate]).
Qed.

(** ** Well-formed logs *)











Lemma Forall2_Forall_r {A B : Type} (R : A -> B -> Prop) (P : B -> Prop)
    (l : list A) (l' : list B) :
  Forall2 R l l' ->
  (forall x y, In x l -> R x y -> P y) ->
  Forall P l'.
Proof.
  induction 1 as [ | a b l l' Hab _ IH]; intros H; constructor.
  - apply (H a b); [left; reflexivity | exact Hab].
  - apply IH. intros x y Hin. apply H. right. exact Hin.
Qed.


(** ** The summary *)

Lemma counters_ext (a b : counters) :
  missing_cost a = missing_cost b ->
  missing_income a = missing_income b ->
  missing_wall a = missing_wall b ->
  a = b.
Proof. destruct a, b; simpl; intros -> -> ->; reflexivity. Qed.

(** The loop with counters derives the list of the loop without, and
    its counters are the tally of the items. *)
Lemma derive_loop_counting_spec (clock : nat -> string)
    (c inc b : pydict record) (items : pydict record) :
  forall i acc n,
    derive_loop_counting fromisoformat float_of_str clock i items c inc b
      acc n
    = (d <- derive_loop fromisoformat float_of_str clock i items c inc b ;;
       Ok (acc ++ d, tally items c inc d n)).
Proof.
  induction items as [ | [k task_rec] items IH]; intros i acc n.
  - simpl. rewrite app_nil_r. do 2 f_equal.
    apply counters_ext; simpl; lia.
  - cbn [derive_loop_counting derive_loop].
    destruct (pd_get k inc) as [income_rec | ] eqn:E.
    + destruct (derive_record fromisoformat float_of_str (clock i) k task_rec
                  (pd_get k c) (Some income_rec) (pd_get k b))
        as [rec | e]; cbn [bind]; [ | reflexivity].
      rewrite IH.
      destruct (derive_loop fromisoformat float_of_str clock (S i) items
                  c inc b) as [d | e]; cbn [bind]; [ | reflexivity].
      rewrite <- app_assoc. simpl. do 2 f_equal.
      apply counters_ext; unfold tally, pd_mem, no_wall_clock; simpl;
        rewrite ?E; simpl;
        destruct (pd_get k c); destruct (wall_clock_seconds rec); simpl; lia.
    + rewrite IH.
      destruct (derive_loop fromisoformat float_of_str clock (S i) items
                  c inc b) as [d | e]; cbn [bind]; [ | reflexivity].
      do 2 f_equal.
      apply counters_ext; unfold tally, pd_mem; simpl; rewrite ?E; simpl; lia.
Qed.

(** The steps of a run that prints a summary. *)
Lemma derive_summary_inv (clock : nat -> string) (dir : agent_dir)
    (out : list completion) (s : summary) :
  derive_summary fromisoformat float_of_str clock dir = Ok (out, Some s) ->
  exists tasks c i b derived,
    load_tasks dir = Ok tasks /\ tasks <> []
    /\ load_token_costs dir = Ok (c, i)
    /\ load_balance dir = Ok b
    /\ derive_loop fromisoformat float_of_str clock 0 tasks c i b = Ok derived
    /\ sort_by_date derived = Ok out
    /\ s = report tasks out (tally tasks c i derived no_counts).
Proof.
  unfold derive_summary. intros H.
  apply bind_ok in H. destruct H as [tasks [Ht H]].
  destruct tasks as [ | kv tasks]; [discriminate | ].
  apply bind_ok in H. destruct H as [[c i] [Hc H]].
  apply bind_ok in H. destruct H as [b [Hb H]].
  rewrite derive_loop_counting_spec in H.
  apply bind_ok in H. destruct H as [[derived n] [Hl H]].
  apply bind_ok in Hl. destruct Hl as [d [Hd Hl]].
  injection Hl as <- <-.
  apply bind_ok in H. destruct H as [sorted [Hs H]].
  injection H as <- <-.
  exists (kv :: tasks), c, i, b, d. repeat split; auto. discriminate.
Qed.

Lemma filter_all {A : Type} (f : A -> bool) (l : list A) :
  Forall (fun x => f x = true) l -> filter f l = l.
Proof.
  induction 1 as [ | x l Hx _ IH]; simpl; [reflexivity | ].
  rewrite Hx, IH. reflexivity.
Qed.

Lemma Permutation_filter_length {A : Type} (f : A -> bool) (l l' : list A) :
  Permutation l l' ->
  List.length (filter f l) = List.length (filter f l').
Proof.
  induction 1 as [ | x l l' _ IH | x y l | l l' l'' _ IH1 _ IH2]; simpl.
  - reflexivity.
  - destruct (f x); simpl; congruence.
  - destruct (f x), (f y); reflexivity.
  - congruence.
Qed.

(** Every record the loop derives has work_submitted true. *)
Lemma derive_loop_submitted (clock : nat -> string)
    (c inc b : pydict record) (tasks : pydict record) (i : nat)
    (derived : list completion) :
  derive_loop fromisoformat float_of_str clock i tasks c inc b = Ok derived ->
  Forall (fun r => work_submitted r = true) derived.
Proof.
  intros H. apply derive_loop_spec in H.
  eapply Forall2_Forall_r; [exact H | ].
  intros [k task_rec] r Hin [j Hr]. simpl in Hr.
  apply filter_In in Hin. destruct Hin as [_ Hm].
  unfold pd_mem in Hm. simpl in Hm.
  apply derive_record_ok in Hr.
  destruct Hr as [s [m [_ [_ [_ [_ [_ [_ [_ [Hw _]]]]]]]]]].
  rewrite Hw. destruct (pd_get k inc); [reflexivity | discriminate].
Qed.

(** X12: the summary accounts for every task of the index: the records
    derived plus the tasks skipped for want of an income record make
    the total; the count of submitted records is the count of derived
    records; the "missing wall clock" count is the number of output
    records whose wall_clock_seconds is null; neither it nor the
    "missing cost rec" count exceeds the number of derived records. *)
Theorem summary_accounts (clock : nat -> string) (dir : agent_dir)
    (out : list completion) (s : summary) :
  derive_summary fromisoformat float_of_str clock dir = Ok (out, Some s) ->
  outcome (derive_task_completions fromisoformat float_of_str
             clock dir false) = Ok out
  /\ derived_count s = List.length out
  /\ (derived_count s + not_submitted s = total_tasks s)%nat
  /\ submitted_count s = derived_count s
  /\ missing_wall_clock s = List.length (filter no_wall_clock out)
  /\ (missing_wall_clock s <= derived_count s)%nat
  /\ (missing_cost_rec s <= derived_count s)%nat.
Proof.
  intros H. apply derive_summary_inv in H.
  destruct H as [tasks [c [i [b [derived H]]]]].
  destruct H as [Ht [N [Hc [Hb [Hd [Hs ->]]]]]].
  destruct (sort_by_date_spec _ _ Hs) as [_ [P _]].
  pose proof (derive_loop_submitted _ _ _ _ _ _ _ Hd) as W.
  pose proof (Permutation_Forall P W) as W'.
  pose proof (Forall2_length_eq _ _ _ (derive_loop_spec _ _ _ _ _ _ _ _ _ Hd))
    as L.
  pose proof (Permutation_length P) as L'.
  unfold report, tally. simpl. rewrite (filter_all _ _ W').
  split.
  { unfold derive_task_completions. rewrite Ht. cbn [bind].
    destruct tasks as [ | kv tasks]; [contradiction | ].
    rewrite Hc. cbn [bind]. rewrite Hb. cbn [bind]. rewrite Hd. cbn [bind].
    rewrite Hs. reflexivity. }
  split; [reflexivity | ].
  split.
  { rewrite <- L', <- L. apply (filter_length_split
                                  (fun kv : json * record =>
                                     pd_mem (fst kv) i) tasks). }
  split; [reflexivity | ].
  split; [apply (Permutation_filter_length no_wall_clock _ _ P) | ].
  split.
  - rewrite (Permutation_filter_length no_wall_clock _ _ P).
    apply filter_length_le_all.
  - rewrite <- L', <- L. apply filter_length_le.
    intros x Hx. apply andb_true_iff in Hx. tauto.
Qed.

(** X13: the sum earned is the sum over the output; the mean score is
    the sum of the scores of all output records over their number (the
    work_submitted filter drops none), and it is 0 when nothing is
    derived, where no division takes place. *)
Theorem summary_mean (clock : nat -> string) (dir : agent_dir)
    (out : list completion) (s : summary) :
  derive_summary fromisoformat float_of_str clock dir = Ok (out, Some s) ->
  total_earned s = py_sum (map money_earned out)
  /\ (out = [] -> avg_score s = 0)
  /\ (out <> [] ->
      avg_score s
      = (py_sum (map evaluation_score out)
         / inject_Z (Z.of_nat (List.length out)))%Q).
Proof.
  intros H. apply derive_summary_inv in H.
  destruct H as [tasks [c [i [b [derived H]]]]].
  destruct H as [Ht [N [Hc [Hb [Hd [Hs ->]]]]]].
  destruct (sort_by_date_spec _ _ Hs) as [_ [P _]].
  pose proof (derive_loop_submitted _ _ _ _ _ _ _ Hd) as W.
  pose proof (Permutation_Forall P W) as W'.
  unfold report. simpl. rewrite (filter_all _ _ W').
  split; [reflexivity | ].
  split; [intros ->; reflexivity | ].
  destruct out as [ | r out]; [intros C; contradiction | reflexivity].
Qed.

(** ** Rounding *)



End MoreProofs.

(** * The rest of the script on the sample logs *)

Lemma same_records_same_outcome_witness :
  task_records sparse_dir = task_records sparse_clean_dir
  /\ token_records sparse_dir = token_records sparse_clean_dir
  /\ balance_records_of sparse_dir = balance_records_of sparse_clean_dir
  /\ outcome (derive_task_completions iso_seconds decimal_float
                noon sparse_dir false)
     = outcome (derive_task_completions iso_seconds decimal_float
                  noon sparse_clean_dir true).
Proof.
  split; [reflexivity | ]. split; [reflexivity | ]. split; [reflexivity | ].
  apply (same_records_same_outcome iso_seconds decimal_float noon
           sparse_dir sparse_clean_dir false true); reflexivity.
Defined.

Lemma second_run_same_witness :
  derive_task_completions iso_seconds decimal_float noon scenario_dir false
  = Ok (returned (run noon scenario_dir false),
        left_by scenario_dir (run noon scenario_dir false))
  /\ derive_task_completions iso_seconds decimal_float noon
       (left_by scenario_dir (run noon scenario_dir false)) false
     = Ok (returned (run noon scenario_dir false),
           left_by scenario_dir (run noon scenario_dir false)).
Proof.
  split; [reflexivity | ].
  apply (second_run_same iso_seconds decimal_float noon scenario_dir).
  reflexivity.
Defined.

Lemma one_record_per_task_witness :
  derive_task_completions iso_seconds decimal_float noon retry_dir false
  = Ok (returned (run noon retry_dir false),
        left_by retry_dir (run noon retry_dir false))
  /\ load_tasks retry_dir = Ok (loaded (load_tasks retry_dir))
  /\ NoDup (map (fun r => canon (task_id r))
              (returned (run noon retry_dir false)))
  /\ List.length (returned (run noon retry_dir false))
     = List.length (filter (fun kv => submitted retry_dir (fst kv))
                      (loaded (load_tasks retry_dir)))
  /\ (List.length (returned (run noon retry_dir false))
      <= List.length (loaded (load_tasks retry_dir)))%nat.
Proof.
  split; [reflexivity | ]. split; [reflexivity | ].
  apply (one_record_per_task iso_seconds decimal_float noon retry_dir
           (left_by retry_dir (run noon retry_dir false)) false);
    reflexivity.
Defined.

Lemma output_record_fields_witness :
  derive_task_completions iso_seconds decimal_float noon sparse_dir true
  = Ok (returned (run noon sparse_dir true), sparse_dir)
  /\ In (hd undated_derived (returned (run noon sparse_dir true)))
       (returned (run noon sparse_dir true))
  /\ attempt (hd undated_derived (returned (run noon sparse_dir true))) = 1%Z
  /\ work_submitted (hd undated_derived (returned (run noon sparse_dir true)))
     = true
  /\ _derived (hd undated_derived (returned (run noon sparse_dir true)))
     = true
  /\ date (hd undated_derived (returned (run noon sparse_dir true)))
     <> JNull
  /\ timestamp (hd undated_derived (returned (run noon sparse_dir true)))
     <> JNull.
Proof.
  split; [reflexivity | ]. split; [left; reflexivity | ].
  apply (output_record_fields iso_seconds decimal_float noon sparse_dir
           sparse_dir true (returned (run noon sparse_dir true)));
    [reflexivity | left; reflexivity].
Defined.

Lemma timestamp_priority_witness :
  derive_record iso_seconds decimal_float "2024-06-01T12:00:00" (JStr "T1")
    undated_task (Some dated_cost) (Some plain_income) None
  = Ok undated_derived
  /\ timestamp undated_derived
     = first_truthy
         (timestamp_candidates (Some dated_cost) (Some plain_income))
         (JStr "2024-06-01T12:00:00")
  /\ (timestamp_logged (Some dated_cost) (Some plain_income) = false ->
      timestamp undated_derived = JStr "2024-06-01T12:00:00")
  /\ (timestamp_logged (Some dated_cost) (Some plain_income) = true ->
      truthy (timestamp undated_derived) = true
      /\ In (timestamp undated_derived)
           (timestamp_candidates (Some dated_cost) (Some plain_income))).
Proof.
  split; [reflexivity | ].
  apply (timestamp_priority iso_seconds decimal_float
           "2024-06-01T12:00:00" (JStr "T1") undated_task
           (Some dated_cost) (Some plain_income) None).
  reflexivity.
Defined.


Lemma summary_accounts_witness :
  exists out s,
    derive_summary iso_seconds decimal_float noon sparse_dir
    = Ok (out, Some s)
    /\ outcome (derive_task_completions iso_seconds decimal_float
                  noon sparse_dir false) = Ok out
    /\ derived_count s = List.length out
    /\ (derived_count s + not_submitted s = total_tasks s)%nat
    /\ submitted_count s = derived_count s
    /\ missing_wall_clock s = List.length (filter no_wall_clock out)
    /\ (missing_wall_clock s <= derived_count s)%nat
    /\ (missing_cost_rec s <= derived_count s)%nat.
Proof.
  eexists. eexists. split; [reflexivity | ].
  apply (summary_accounts iso_seconds decimal_float noon sparse_dir).
  reflexivity.
Defined.

Lemma summary_mean_witness :
  exists out s,
    derive_summary iso_seconds decimal_float noon retry_dir
    = Ok (out, Some s)
    /\ total_earned s = py_sum (map money_earned out)
    /\ (out = [] -> avg_score s = 0)
    /\ (out <> [] ->
        avg_score s
        = (py_sum (map evaluation_score out)
           / inject_Z (Z.of_nat (List.length out)))%Q).
Proof.
  eexists. eexists. split; [reflexivity | ].
  apply (summary_mean iso_seconds decimal_float noon retry_dir).
  reflexivity.
Defined.


(** An int completion time of 2^1024 and no cost record:
    compute_wall_clock raises OverflowError. *)
Example overflow_uncaught :
  compute_wall_clock iso_seconds decimal_float (JStr "T1") None
    (Some [("task_completion_time_seconds", JInt (2 ^ 1024))]%string)
  = Raise OverflowError.
Proof. reflexivity. Qed.

(** * The order of the task index, and the clock *)

Lemma pd_mem_keys {V : Type} (k : json) (d : pydict V) :
  pd_mem k d = existsb (cval_eqb (canon k)) (keys d).
Proof.
  unfold pd_mem, keys. induction d as [ | [k' v] d IH]; simpl;
    [reflexivity | ].
  unfold py_eq at 1. destruct (cval_eqb (canon k) (canon k'));
    [reflexivity | exact IH].
Qed.

Lemma keys_set {V : Type} (k : json) (v : V) (d : pydict V) :
  keys (pd_set k v d) = add_once (keys d) (canon k).
Proof.
  unfold add_once. rewrite <- pd_mem_keys. unfold keys.
  rewrite <- (map_map fst canon), pd_set_keys.
  destruct (pd_mem k d); rewrite ?map_app, ?map_map; reflexivity.
Qed.

Lemma index_by_keys (sel : record -> bool) (recs : list json) :
  forall acc idx,
    index_by sel recs acc = Ok idx ->
    keys idx = fold_left add_once (stored_ids sel recs) (keys acc).
Proof.
  induction recs as [ | rec rest IH]; simpl; intros acc idx H.
  - injection H as <-. reflexivity.
  - apply bind_ok in H. destruct H as [r [Hr H]].
    destruct rec; try discriminate. injection Hr as ->.
    unfold stored_ids in *. simpl.
    destruct (truthy (get r "task_id") && sel r).
    + apply bind_ok in H. destruct H as [acc' [Ha H]].
      unfold pd_store in Ha.
      destruct (hashable (get r "task_id")); [ | discriminate].
      injection Ha as <-. simpl.
      rewrite <- (keys_set (get r "task_id") r acc). apply IH. exact H.
    + simpl. apply IH. exact H.
Qed.

(** X15: the task index iterates its task identifiers in the order of
    their first occurrence in work/tasks.jsonl: a task assigned again
    later keeps its place (and, by last-write-wins, takes the later
    record). *)
Theorem task_index_order (dir : agent_dir) (tasks : pydict record) :
  load_tasks dir = Ok tasks ->
  keys tasks = first_occurrences (stored_ids any_record (task_records dir)).
Proof.
  rewrite load_tasks_records. intros H.
  apply index_by_keys in H. exact H.
Qed.

Lemma task_index_order_witness :
  load_tasks reassigned_dir
  = Ok [(JStr "T1", [("task_id", JStr "T1"); ("date", JStr "2024-01-03")]);
        (JStr "T2", [("task_id", JStr "T2"); ("date", JStr "2024-01-02")])]%string
  /\ keys [(JStr "T1",
            [("task_id", JStr "T1"); ("date", JStr "2024-01-03")]);
           (JStr "T2",
            [("task_id", JStr "T2"); ("date", JStr "2024-01-02")])]%string
     = first_occurrences
         (stored_ids any_record (task_records reassigned_dir)).
Proof.
  split; [reflexivity | ].
  apply (task_index_order reassigned_dir). reflexivity.
Defined.

Lemma Ok_inj {A : Type} (a b : A) : Ok a = Ok b -> a = b.
Proof. intros H. injection H as H. exact H. Qed.

Lemma cons_inj {A : Type} (a b : A) (l m : list A) :
  a :: l = b :: m -> a = b /\ l = m.
Proof. intros H. injection H as H1 H2. auto. Qed.

Section Clock.

Variable fromisoformat : string -> option datetime.
Variable float_of_str : string -> option Q.

Lemma derive_record_forget (now1 now2 : string) (k : json)
    (task_rec : record) (cost_rec income_rec balance_rec : option record) :
  result_map forget_timestamp
    (derive_record fromisoformat float_of_str now1 k task_rec
       cost_rec income_rec balance_rec)
  = result_map forget_timestamp
      (derive_record fromisoformat float_of_str now2 k task_rec
         cost_rec income_rec balance_rec).
Proof.
  unfold derive_record.
  destruct (income_float float_of_str income_rec "evaluation_score");
    cbn [bind result_map]; [ | reflexivity].
  destruct (income_float float_of_str income_rec "actual_payment");
    cbn [bind result_map]; [ | reflexivity].
  destruct (compute_wall_clock fromisoformat float_of_str k cost_rec
              balance_rec); cbn [bind result_map]; reflexivity.
Qed.

Lemma derive_loop_forget (clock1 clock2 : nat -> string)
    (c inc b : pydict record) (tasks : pydict record) :
  forall i1 i2,
    result_map (map forget_timestamp)
      (derive_loop fromisoformat float_of_str clock1 i1 tasks c inc b)
    = result_map (map forget_timestamp)
        (derive_loop fromisoformat float_of_str clock2 i2 tasks c inc b).
Proof.
  induction tasks as [ | [k task_rec] tasks IH]; intros i1 i2;
    cbn [derive_loop]; [reflexivity | ].
  destruct (pd_get k inc) as [income_rec | ]; [ | apply IH].
  pose proof (derive_record_forget (clock1 i1) (clock2 i2) k task_rec
                (pd_get k c) (Some income_rec) (pd_get k b)) as R.
  specialize (IH (S i1) (S i2)).
  destruct (derive_record fromisoformat float_of_str (clock1 i1) k task_rec
              (pd_get k c) (Some income_rec) (pd_get k b)) as [r1 | e1];
    destruct (derive_record fromisoformat float_of_str (clock2 i2) k task_rec
                (pd_get k c) (Some income_rec) (pd_get k b)) as [r2 | e2];
    cbn [bind result_map] in *; try discriminate;
    [ | injection R as ->; reflexivity].
  destruct (derive_loop fromisoformat float_of_str clock1 (S i1) tasks
              c inc b) as [d1 | e1];
    destruct (derive_loop fromisoformat float_of_str clock2 (S i2) tasks
                c inc b) as [d2 | e2];
    cbn [bind result_map] in *; try discriminate;
    [ | injection IH as ->; reflexivity].
  apply Ok_inj in R. apply Ok_inj in IH. simpl. rewrite R, IH. reflexivity.
Qed.

Lemma insert_by_date_forget (x1 x2 : completion) (l1 : list completion) :
  forget_timestamp x1 = forget_timestamp x2 ->
  forall l2,
    map forget_timestamp l1 = map forget_timestamp l2 ->
    result_map (map forget_timestamp) (insert_by_date x1 l1)
    = result_map (map forget_timestamp) (insert_by_date x2 l2).
Proof.
  intros X.
  assert (Dx : date x1 = date x2)
    by exact (f_equal date X).
  induction l1 as [ | y1 l1 IH]; intros [ | y2 l2] M; try discriminate.
  - simpl. rewrite X. reflexivity.
  - simpl in M. apply cons_inj in M. destruct M as [Y M].
    assert (Dy : date y1 = date y2) by exact (f_equal date Y).
    simpl. rewrite Dx, Dy.
    destruct (py_lt (date x2) (date y2)) as [[ | ] | e];
      cbn [bind result_map]; [ | | reflexivity].
    + simpl. rewrite X, Y, M. reflexivity.
    + specialize (IH l2 M).
      destruct (insert_by_date x1 l1), (insert_by_date x2 l2);
        cbn [bind result_map] in *; try discriminate; [ | exact IH].
      apply Ok_inj in IH. simpl. rewrite Y, IH. reflexivity.
Qed.

Lemma sort_by_date_forget (l1 : list completion) :
  forall l2,
    map forget_timestamp l1 = map forget_timestamp l2 ->
    result_map (map forget_timestamp) (sort_by_date l1)
    = result_map (map forget_timestamp) (sort_by_date l2).
Proof.
  unfold sort_by_date.
  assert (G : forall l2 acc1 acc2,
             map forget_timestamp l1 = map forget_timestamp l2 ->
             result_map (map forget_timestamp) acc1
             = result_map (map forget_timestamp) acc2 ->
             result_map (map forget_timestamp)
               (fold_left (fun acc x => sorted <- acc ;;
                                        insert_by_date x sorted) l1 acc1)
             = result_map (map forget_timestamp)
                 (fold_left (fun acc x => sorted <- acc ;;
                                          insert_by_date x sorted) l2 acc2)).
  { induction l1 as [ | x1 l1 IH]; intros [ | x2 l2] acc1 acc2 M A;
      try discriminate; [exact A | ].
    simpl in M. apply cons_inj in M. destruct M as [X M].
    simpl. apply IH; [exact M | ].
    destruct acc1 as [s1 | e1], acc2 as [s2 | e2];
      cbn [bind result_map] in *; try discriminate; [ | exact A].
    apply Ok_inj in A. apply insert_by_date_forget; assumption. }
  intros l2 M. apply G; [exact M | reflexivity].
Qed.

(** X16: the clock reaches the timestamp field only: two runs over the
    same files at different times raise the same exception, or return
    lists that are equal once the timestamps are blanked, in the same
    order. *)
Theorem clock_only_in_timestamp (clock1 clock2 : nat -> string)
    (dir : agent_dir) (dry_run : bool) :
  result_map (map forget_timestamp)
    (outcome (derive_task_completions fromisoformat float_of_str
                clock1 dir dry_run))
  = result_map (map forget_timestamp)
      (outcome (derive_task_completions fromisoformat float_of_str
                  clock2 dir dry_run)).
Proof.
  rewrite !outcome_records.
  destruct (index_by any_record (task_records dir) []) as [tasks | e];
    cbn [bind]; [ | reflexivity].
  destruct tasks as [ | kv tasks]; [reflexivity | ].
  destruct (index_token_costs (token_records dir) [] []) as [[c i] | e];
    cbn [bind fst snd]; [ | reflexivity].
  destruct (index_by is_balance (balance_records_of dir) []) as [b | e];
    cbn [bind]; [ | reflexivity].
  pose proof (derive_loop_forget clock1 clock2 c i b (kv :: tasks) 0 0) as L.
  destruct (derive_loop fromisoformat float_of_str clock1 0 (kv :: tasks)
              c i b) as [d1 | e1];
    destruct (derive_loop fromisoformat float_of_str clock2 0 (kv :: tasks)
                c i b) as [d2 | e2];
    cbn [bind result_map] in *; try discriminate; [ | exact L].
  apply Ok_inj in L. apply sort_by_date_forget. exact L.
Qed.

End Clock.

(** With no logged timestamp the two runs differ, in the timestamp. *)
Example unstamped_runs_differ :
  outcome (run noon unstamped_dir true)
  <> outcome (run midnight unstamped_dir true)
  /\ map timestamp (returned (run noon unstamped_dir true))
     = [JStr "2024-06-01T12:00:00"].
Proof. split; [discriminate | reflexivity]. Qed.
